(** * ATAK replay viewer: log loading, snapshot reconstruction, playback

    A shallow embedding of [replay.py].  Python values are modelled as
    follows.

    - [str] is [string], one character per code point below 128: the
      character tests ([isspace], [isalpha], [upper], the digits of
      [strptime] and [float]) are those of Python on ASCII text.  A
      statement that would not hold of Python on other text assumes the
      text it reads to be ASCII ([is_ascii]).
    - Exceptions are an explicit error result ([result]).
    - [datetime] is a record of its six fields, compared field by field.
    - [float] keeps the decimal literal it was read from ([pyfloat]);
      no floating point arithmetic is modelled, the mean used for the map
      center is a parameter.
    - A pandas frame is the list of its rows in frame order, each row with
      its index label.  Where the order of rows of equal time does not
      matter, [DataFrame.sort_values] is a parameter together with the
      contract pandas documents for every sorting kind; where it does,
      it is the default kind, numpy's quicksort ([quicksort_sort_values]).
    - Objects that the code mutates (frames, figures) live in a store of
      objects ([store]); the module globals are names for objects in it.
    - [hash] is a parameter (CPython salts string hashes per process). *)

From Stdlib Require Import ZArith Ascii String List Lia Sorted Permutation.
From stdpp Require Import base option list strings gmap sorting.

Local Open Scope Z_scope.

(** ** Exceptions *)

Inductive pyerr : Type :=
| IndexError
| ValueError
| KeyError
| TypeError.

Inductive result (A : Type) : Type :=
| OK (a : A)
| Raise (e : pyerr).
Arguments OK {A} a.
Arguments Raise {A} e.

#[global] Instance result_ret : MRet result := fun _ a => OK a.
#[global] Instance result_bind : MBind result := fun _ _ k r =>
  match r with
  | OK a => k a
  | Raise e => Raise e
  end.

(** ** Python string operations *)

Module PyStr.

Definition chars (s : string) : list ascii := list_ascii_of_string s.
Definition join (l : list ascii) : string := string_of_list_ascii l.

Definition code (c : ascii) : nat := nat_of_ascii c.

(** [str.isspace] on one ASCII character: TAB..CR, FS..US and space. *)
Definition isspace (c : ascii) : bool :=
  let n := code c in
  ((9 <=? n) && (n <=? 13) || (28 <=? n) && (n <=? 32))%nat.

Definition isupper (c : ascii) : bool :=
  let n := code c in ((65 <=? n) && (n <=? 90))%nat.
Definition islower (c : ascii) : bool :=
  let n := code c in ((97 <=? n) && (n <=? 122))%nat.
Definition isalpha (c : ascii) : bool := isupper c || islower c.
Definition isdigit (c : ascii) : bool :=
  let n := code c in ((48 <=? n) && (n <=? 57))%nat.

Definition upper_char (c : ascii) : ascii :=
  if islower c then ascii_of_nat (code c - 32) else c.
Definition lower_char (c : ascii) : ascii :=
  if isupper c then ascii_of_nat (code c + 32) else c.

Definition upper (s : string) : string := join (map upper_char (chars s)).
Definition lower (s : string) : string := join (map lower_char (chars s)).

Fixpoint lstrip (s : string) : string :=
  match s with
  | String c s' => if isspace c then lstrip s' else s
  | EmptyString => EmptyString
  end.

Fixpoint rstrip (s : string) : string :=
  match s with
  | String c s' =>
      match rstrip s' with
      | EmptyString => if isspace c then EmptyString else String c EmptyString
      | r => String c r
      end
  | EmptyString => EmptyString
  end.

Definition strip (s : string) : string := rstrip (lstrip s).

Definition startswith (s p : string) : bool := String.prefix p s.

(** [s[n:]] *)
Fixpoint slice_from (n : nat) (s : string) : string :=
  match n, s with
  | O, _ => s
  | S n', String _ s' => slice_from n' s'
  | S _, EmptyString => EmptyString
  end.

(** [s[:n]] *)
Fixpoint slice_to (n : nat) (s : string) : string :=
  match n, s with
  | O, _ => EmptyString
  | S n', String c s' => String c (slice_to n' s')
  | S _, EmptyString => EmptyString
  end.

(** [s[a:b]] for [0 <= a], [0 <= b] *)
Definition slice (a b : nat) (s : string) : string :=
  slice_to (b - a) (slice_from a s).

(** [s.index(c)] for a one character needle: position of the first
    occurrence, [ValueError] when there is none. *)
Fixpoint find_char (c : ascii) (s : string) : option nat :=
  match s with
  | EmptyString => None
  | String d s' =>
      if Ascii.eqb c d then Some O else option_map S (find_char c s')
  end.

Definition index (c : ascii) (s : string) : result nat :=
  match find_char c s with
  | Some n => OK n
  | None => Raise ValueError
  end.

(** [c in s] for a one character needle *)
Definition contains (c : ascii) (s : string) : bool :=
  match find_char c s with Some _ => true | None => false end.

(** [s.split(sep)] for a non-empty separator: the pieces between the
    non-overlapping occurrences of [sep], scanning from the left.  [skip]
    counts the characters of a matched separator still to be passed over,
    [cur] holds the current piece in reverse. *)
Fixpoint split_go (sep : string) (skip : nat) (cur : list ascii) (s : string)
  : list string :=
  match s with
  | EmptyString => [join (rev cur)]
  | String c s' =>
      match skip with
      | S k => split_go sep k cur s'
      | O =>
          if String.prefix sep s
          then join (rev cur) :: split_go sep (String.length sep - 1) [] s'
          else split_go sep O (c :: cur) s'
      end
  end.

Definition split (sep : string) (s : string) : list string :=
  split_go sep O [] s.

(** [l[i]] on a list, [IndexError] out of range. *)
Definition item {A} (l : list A) (i : nat) : result A :=
  match nth_error l i with
  | Some a => OK a
  | None => Raise IndexError
  end.

End PyStr.

(** Text whose characters are all ASCII.  On such text the functions of
    [PyStr] are the methods of [str]. *)
Definition is_ascii (s : string) : bool :=
  forallb (fun c => (PyStr.code c <? 128)%nat) (PyStr.chars s).

(** ** Entity classifier (replay.py, lines 30 and 44-52) *)

(** ["".join([c for c in user if c.isalpha()][:3]).upper()] *)
Definition tag_of (user : string) : string :=
  PyStr.upper
    (PyStr.join (firstn 3 (List.filter PyStr.isalpha (PyStr.chars user)))).

(** The tag as the specification words it: walk the identifier from the
    left, pass over every character that is not alphabetic, and collect
    alphabetic ones, uppercased, until three are collected or the
    identifier ends. *)
Fixpoint spec_tag_go (want : nat) (s : string) : string :=
  match want, s with
  | O, _ => EmptyString
  | _, EmptyString => EmptyString
  | S w, String c s' =>
      if PyStr.isalpha c
      then String (PyStr.upper_char c) (spec_tag_go w s')
      else spec_tag_go want s'
  end.

Definition spec_tag (user : string) : string := spec_tag_go 3 user.

(** [f"{n:06x}"] for [0 <= n]: lowercase hexadecimal, zero padded on the
    left to six characters (longer numbers are not truncated). *)
Definition hex_digit (d : Z) : ascii :=
  if d <? 10 then ascii_of_nat (Z.to_nat (48 + d))
  else ascii_of_nat (Z.to_nat (87 + d)).

Fixpoint hex_go (fuel : nat) (n : Z) (acc : list ascii) : list ascii :=
  match fuel with
  | O => acc
  | S f =>
      let acc' := hex_digit (n mod 16) :: acc in
      if n / 16 =? 0 then acc' else hex_go f (n / 16) acc'
  end.

Definition hex (n : Z) : list ascii := hex_go (S (Z.to_nat (Z.log2 n))) n [].

Definition format_06x (n : Z) : string :=
  let h := hex n in
  PyStr.join (repeat "0"%char (6 - length h) ++ h)%list.

(** The body of the loop over [unique_tags]: the color of one tag. *)
Definition tag_color (hash : string -> Z) (tag : string) : string :=
  if PyStr.startswith tag "BDR" then "red"
  else if PyStr.startswith tag "ETG" then "blue"
  else "#" +:+ format_06x (hash tag mod 16777215).

(** [tag_colors = {}; for tag in unique_tags: tag_colors[tag] = ...] *)
Definition build_tag_colors (hash : string -> Z) (unique_tags : list string)
  : gmap string string :=
  fold_left (fun m tag => <[tag := tag_color hash tag]> m) unique_tags ∅.

(** ** datetime and strptime *)

Record datetime : Type := mk_datetime {
  year : Z; month : Z; day : Z; hour : Z; minute : Z; second : Z
}.

Definition dt_fields (d : datetime) : list Z :=
  [year d; month d; day d; hour d; minute d; second d].

(** Lexicographic comparison, as Python compares the fields of two
    datetimes (and as the nanosecond counts of pandas compare). *)
Fixpoint lex_leb (a b : list Z) : bool :=
  match a, b with
  | [], _ => true
  | _ :: _, [] => false
  | x :: a', y :: b' => (x <? y) || ((x =? y) && lex_leb a' b')
  end.

Definition dt_leb (a b : datetime) : bool := lex_leb (dt_fields a) (dt_fields b).
Definition dt_le (a b : datetime) : Prop := dt_leb a b = true.
Definition dt_lt (a b : datetime) : Prop := dt_leb b a = false.

#[global] Instance datetime_eq_dec : EqDecision datetime.
Proof. solve_decision. Defined.

Module Strptime.

Import PyStr.

Definition digit_val (c : ascii) : Z := Z.of_nat (code c) - 48.
Definition between (lo hi c : ascii) : bool :=
  ((code lo <=? code c) && (code c <=? code hi))%nat.

(** One alternative of a regular expression group: the values it can
    take on a prefix of the input, with the rest of the input. *)
Definition alts : Type := list (Z * list ascii).

Definition two (p : ascii -> ascii -> bool) (s : list ascii) : alts :=
  match s with
  | a :: b :: r => if p a b then [(10 * digit_val a + digit_val b, r)] else []
  | _ => []
  end.

Definition one (p : ascii -> bool) (s : list ascii) : alts :=
  match s with
  | a :: r => if p a then [(digit_val a, r)] else []
  | _ => []
  end.

(** [(?P<Y>\d\d\d\d)] *)
Definition re_Y (s : list ascii) : alts :=
  match s with
  | a :: b :: c :: d :: r =>
      if isdigit a && isdigit b && isdigit c && isdigit d
      then [(1000 * digit_val a + 100 * digit_val b
             + 10 * digit_val c + digit_val d, r)]
      else []
  | _ => []
  end.

(** [(?P<m>1[0-2]|0[1-9]|[1-9])] *)
Definition re_m (s : list ascii) : alts :=
  (two (fun a b => Ascii.eqb a "1" && between "0" "2" b) s
  ++ two (fun a b => Ascii.eqb a "0" && between "1" "9" b) s
  ++ one (between "1" "9") s)%list.

(** [(?P<d>3[0-1]|[1-2]\d|0[1-9]|[1-9]| [1-9])] *)
Definition re_d (s : list ascii) : alts :=
  (two (fun a b => Ascii.eqb a "3" && between "0" "1" b) s
  ++ two (fun a b => between "1" "2" a && isdigit b) s
  ++ two (fun a b => Ascii.eqb a "0" && between "1" "9" b) s
  ++ one (between "1" "9") s
  ++ match s with
     | a :: r => if Ascii.eqb a " " then one (between "1" "9") r else []
     | [] => []
     end)%list.

(** [(?P<H>2[0-3]|[0-1]\d|\d)] *)
Definition re_H (s : list ascii) : alts :=
  (two (fun a b => Ascii.eqb a "2" && between "0" "3" b) s
  ++ two (fun a b => between "0" "1" a && isdigit b) s
  ++ one isdigit s)%list.

(** [(?P<M>[0-5]\d|\d)] *)
Definition re_M (s : list ascii) : alts :=
  (two (fun a b => between "0" "5" a && isdigit b) s ++ one isdigit s)%list.

(** [(?P<S>6[0-1]|[0-5]\d|\d)] *)
Definition re_S (s : list ascii) : alts :=
  (two (fun a b => Ascii.eqb a "6" && between "0" "1" b) s
  ++ two (fun a b => between "0" "5" a && isdigit b) s
  ++ one isdigit s)%list.

(** A literal character of the format. *)
Definition lit (c : ascii) (s : list ascii) : list (list ascii) :=
  match s with
  | a :: r => if Ascii.eqb a c then [r] else []
  | [] => []
  end.

(** [\s+], which the blank of the format is compiled to.  Every group
    that can follow it starts with a digit, so only the longest run of
    blanks can lead to a match. *)
Fixpoint skip_spaces (s : list ascii) : list ascii :=
  match s with
  | a :: r => if isspace a then skip_spaces r else s
  | [] => []
  end.

Definition re_blank (s : list ascii) : list (list ascii) :=
  match s with
  | a :: r => if isspace a then [skip_spaces r] else []
  | [] => []
  end.

(** All matches of the compiled format at the start of the input, in
    the order a backtracking matcher finds them. *)
Definition matches (s : list ascii) : list (datetime * list ascii) :=
  '(vY, s) ← re_Y s; s ← lit "-" s;
  '(vm, s) ← re_m s; s ← lit "-" s;
  '(vd, s) ← re_d s; s ← re_blank s;
  '(vH, s) ← re_H s; s ← lit ":" s;
  '(vM, s) ← re_M s; s ← lit ":" s;
  '(vS, s) ← re_S s;
  [(mk_datetime vY vm vd vH vM vS, s)].

Definition is_leap (y : Z) : bool :=
  (y mod 4 =? 0) && (negb (y mod 100 =? 0) || (y mod 400 =? 0)).

Definition days_in_month (y m : Z) : Z :=
  if m =? 2 then (if is_leap y then 29 else 28)
  else if (m =? 4) || (m =? 6) || (m =? 9) || (m =? 11) then 30
  else 31.

(** The range checks of the [datetime] constructor. *)
Definition valid (d : datetime) : bool :=
  (1 <=? year d) && (day d <=? days_in_month (year d) (month d))
  && (second d <=? 59).

(** [datetime.datetime.strptime(s, "%Y-%m-%d %H:%M:%S")]: the first match
    of the compiled format must use up the whole string and denote a
    date that exists. *)
Definition strptime (s : string) : result datetime :=
  match matches (chars s) with
  | (d, []) :: _ => if valid d then OK d else Raise ValueError
  | _ => Raise ValueError
  end.

End Strptime.

(** ** float() *)

Inductive pyfloat : Type :=
| Fnan
| Finf (neg : bool)
| Fdec (neg : bool) (mant : Z) (exp10 : Z).

#[global] Instance pyfloat_eq_dec : EqDecision pyfloat.
Proof. solve_decision. Defined.

Module PyFloat.

Import PyStr.

(** [Py_ISSPACE]: on ASCII text [float] passes over the blanks of the C
    locale only, which leaves out FS..US. *)
Definition c_isspace (c : ascii) : bool :=
  let n := code c in ((9 <=? n) && (n <=? 13) || (n =? 32))%nat.

Fixpoint lstrip_c (s : string) : string :=
  match s with
  | String c s' => if c_isspace c then lstrip_c s' else s
  | EmptyString => EmptyString
  end.

Fixpoint rstrip_c (s : string) : string :=
  match s with
  | String c s' =>
      match rstrip_c s' with
      | EmptyString => if c_isspace c then EmptyString else String c EmptyString
      | r => String c r
      end
  | EmptyString => EmptyString
  end.

(** An underscore is allowed only between two digits. *)
Fixpoint underscores_ok (prev : ascii) (s : list ascii) : bool :=
  match s with
  | [] => negb (Ascii.eqb prev "_")
  | c :: r =>
      (if Ascii.eqb c "_" then isdigit prev
       else negb (Ascii.eqb prev "_") || isdigit c)
      && underscores_ok c r
  end.

Definition drop_underscores (s : list ascii) : list ascii :=
  List.filter (fun c => negb (Ascii.eqb c "_")) s.

Fixpoint digits (s : list ascii) : list ascii * list ascii :=
  match s with
  | c :: r =>
      if isdigit c then let '(d, r') := digits r in (c :: d, r') else ([], s)
  | [] => ([], [])
  end.

Definition number (ds : list ascii) : Z :=
  fold_left (fun n c => 10 * n + Strptime.digit_val c) ds 0.

Definition sign (s : list ascii) : bool * list ascii :=
  match s with
  | c :: r =>
      if Ascii.eqb c "-" then (true, r)
      else if Ascii.eqb c "+" then (false, r)
      else (false, s)
  | [] => (false, [])
  end.

(** The optional exponent; what follows the number has to be nothing or
    exactly one exponent. *)
Definition exponent (s : list ascii) : result Z :=
  match s with
  | [] => OK 0
  | c :: r =>
      if Ascii.eqb c "e" || Ascii.eqb c "E" then
        let '(neg, r1) := sign r in
        match digits r1 with
        | ((_ :: _) as ds, []) => OK (if neg then - number ds else number ds)
        | _ => Raise ValueError
        end
      else Raise ValueError
  end.

Definition finite (neg : bool) (s : list ascii) : result pyfloat :=
  let '(ip, r1) := digits s in
  let '(fp, r2) :=
    match r1 with
    | c :: r => if Ascii.eqb c "." then digits r else ([], r1)
    | [] => ([], [])
    end in
  match (ip ++ fp)%list with
  | [] => Raise ValueError
  | ds =>
      e ← exponent r2;
      OK (Fdec neg (number ds) (e - Z.of_nat (length fp)))
  end.

(** [float(s)] for an ASCII string [s] *)
Definition float (s : string) : result pyfloat :=
  if underscores_ok "000" (chars s) then
    let body :=
      chars (rstrip_c (lstrip_c (join (drop_underscores (chars s))))) in
    let '(neg, r) := sign body in
    let word := lower (join r) in
    if String.eqb word "inf" || String.eqb word "infinity" then OK (Finf neg)
    else if String.eqb word "nan" then OK Fnan
    else finite neg r
  else Raise ValueError.

End PyFloat.

(** ** Loading the log (replay.py, lines 13-37) *)

Record Observation : Type := mk_obs {
  time : datetime;
  user : string;
  lon : pyfloat;
  lat : pyfloat;
  tag : string
}.

#[global] Instance Observation_eq_dec : EqDecision Observation.
Proof. solve_decision. Defined.

(** The two variables the loop updates. *)
Record loader : Type := mk_loader {
  current_time : option datetime;
  data : list Observation
}.

Definition loader_init : loader := mk_loader None [].

(** [a, b = l] *)
Definition unpack2 {A} (l : list A) : result (A * A) :=
  match l with
  | [a; b] => OK (a, b)
  | _ => Raise ValueError
  end.

(** Lines 19-20: the time of a header line. *)
Definition header_time (line : string) : result datetime :=
  after ← PyStr.item (PyStr.split " at " line) 1;
  ts_str ← PyStr.item (PyStr.split " UTC" after) 0;
  Strptime.strptime ts_str.

(** Lines 22-37: what an entry line adds to [data], if anything. *)
Definition entry (line : string) : result (option Observation) :=
  ts_end ← PyStr.index "]" line;
  entry_time ← Strptime.strptime (PyStr.slice 1 ts_end line);
  let rest := PyStr.slice_from (ts_end + 2) line in
  if PyStr.contains ":" rest then
    '(user, loc) ← unpack2 (PyStr.split ":" rest);
    let user := PyStr.strip user in
    let loc := PyStr.strip loc in
    coords ← mapM PyFloat.float (firstn 2 (PyStr.split "," loc));
    let tag := tag_of user in
    c0 ← PyStr.item coords 0;
    c1 ← PyStr.item coords 1;
    OK (Some (mk_obs entry_time user c0 c1 tag))
  else OK None.

Definition is_header (line : string) : bool :=
  PyStr.startswith line "--- Snapshot".

(** Truth value of [current_time]: [None] is false, a datetime is true. *)
Definition truthy (t : option datetime) : bool :=
  match t with Some _ => true | None => false end.

(** One iteration of [for line in f]. *)
Definition loader_step (st : loader) (raw : string) : result loader :=
  let line := PyStr.strip raw in
  if is_header line then
    t ← header_time line;
    OK (mk_loader (Some t) (data st))
  else if PyStr.startswith line "[" && truthy (current_time st) then
    o ← entry line;
    match o with
    | Some ob => OK (mk_loader (current_time st) (data st ++ [ob]))
    | None => OK st
    end
  else OK st.

Fixpoint loader_run (st : loader) (lines : list string) : result loader :=
  match lines with
  | [] => OK st
  | raw :: rest => st' ← loader_step st raw; loader_run st' rest
  end.

(** The list [data] after the loop over the lines of the file. *)
Definition load (lines : list string) : result (list Observation) :=
  st ← loader_run loader_init lines; OK (data st).

(** ** Frames (replay.py, lines 39-42) *)

(** A row with its index label; [DataFrame(data)] labels the rows with
    their positions in [data]. *)
Definition row : Type := nat * Observation.

Definition DataFrame (data : list Observation) : list row :=
  imap (fun i o => (i, o)) data.

Definition dt_le_row (a b : row) : Prop := dt_le (time a.2) (time b.2).

#[global] Instance dt_le_dec a b : Decision (dt_le a b).
Proof. unfold dt_le. apply _. Defined.

(** [Series.unique()]: the distinct values in order of first appearance. *)
Fixpoint unique {A} `{EqDecision A} (l : list A) : list A :=
  match l with
  | [] => []
  | x :: r => x :: filter (fun y => y <> x) (unique r)
  end.

(** [sorted] on datetimes. *)
Fixpoint insert_time (t : datetime) (l : list datetime) : list datetime :=
  match l with
  | [] => [t]
  | x :: r => if dt_leb x t then x :: insert_time t r else t :: l
  end.

Definition sorted (l : list datetime) : list datetime :=
  fold_left (fun acc t => insert_time t acc) l [].

(** [groupby("user").tail(1)]: the rows that are the last of their user,
    in frame order. *)
Definition same_user (r r' : row) : bool := String.eqb (user r'.2) (user r.2).

Fixpoint groupby_user_tail1 (l : list row) : list row :=
  match l with
  | [] => []
  | r :: rest =>
      if existsb (same_user r) rest
      then groupby_user_tail1 rest
      else r :: groupby_user_tail1 rest
  end.

Record globals : Type := mk_globals {
  df : list row;
  unique_times : list datetime;
  unique_tags : list string;
  tag_colors : gmap string string
}.

(** A JSON value as the browser sends it in [relayoutData]. *)
Inductive jvalue : Type :=
| JNum (x : pyfloat)
| JObj (fields : gmap string pyfloat).

Record trace : Type := mk_trace {
  tr_lon : list pyfloat;
  tr_lat : list pyfloat;
  tr_color : string;
  tr_text : list string;
  tr_name : string
}.

Record figure : Type := mk_figure {
  fig_data : list trace;
  fig_center_lat : pyfloat;
  fig_center_lon : pyfloat;
  fig_zoom : jvalue
}.

(** Code that runs against the module globals: it may read and assign
    them, and it returns a value or raises. *)
Definition py (A : Type) : Type := globals -> result A * globals.

#[global] Instance py_ret : MRet py := fun _ a g => (OK a, g).
#[global] Instance py_bind : MBind py := fun _ _ k m g =>
  match m g with
  | (OK a, g') => k a g'
  | (Raise e, g') => (Raise e, g')
  end.

Definition read {A} (f : globals -> A) : py A := fun g => (OK (f g), g).
Definition raise {A} (e : pyerr) : py A := fun g => (Raise e, g).

(** [d[k]] on a dict *)
Definition getitem (d : gmap string string) (k : string) : py string :=
  match d !! k with
  | Some v => mret v
  | None => raise KeyError
  end.

Section Program.

(** [DataFrame.sort_values("time")] with the default sorting kind. *)
Variable sort_values : list row -> list row.
(** [Series.mean()] *)
Variable mean : list pyfloat -> pyfloat.
(** The builtin [hash] on strings. *)
Variable hash : string -> Z.

(** Lines 39-52.  A frame built from an empty list has no columns, so
    sorting it by ["time"] raises. *)
Definition init_globals (data : list Observation) : result globals :=
  match data with
  | [] => Raise KeyError
  | _ =>
      let df := sort_values (DataFrame data) in
      let unique_times := sorted (unique (map (fun r => time r.2) df)) in
      let unique_tags := unique (map (fun r => tag r.2) df) in
      OK (mk_globals df unique_times unique_tags
            (build_tag_colors hash unique_tags))
  end.

(** Lines 104-107 of [create_figure]: the rows shown at [current_time]. *)
Definition snapshot (df : list row) (current_time : datetime) : list row :=
  let current_df := filter (fun r => dt_le (time r.2) current_time) df in
  groupby_user_tail1 (sort_values current_df).

(** Lines 102-139. *)
Definition create_figure (current_time : datetime)
    (center : option (pyfloat * pyfloat)) (zoom : jvalue) : py figure :=
  frame ← read df;
  let current_df := snapshot frame current_time in
  traces ← mapM (fun tg =>
      let tag_df := filter (fun r => tag r.2 = tg) current_df in
      colors ← read tag_colors;
      color ← getitem colors tg;
      mret (mk_trace (map (fun r => lon r.2) tag_df)
                     (map (fun r => lat r.2) tag_df)
                     color
                     (map (fun r => user r.2) tag_df)
                     tg))
    (unique (map (fun r => tag r.2) current_df));
  let '(center_lat, center_lon) :=
    match center with
    | None =>
        match current_df with
        | _ :: _ => (mean (map (fun r => lat r.2) current_df),
                     mean (map (fun r => lon r.2) current_df))
        | [] => (Fdec true 41289 (-3), Fdec false 174762 (-3))
        end
    | Some c => c
    end in
  mret (mk_figure traces center_lat center_lon zoom).

End Program.

(** ** Callbacks (replay.py, lines 159-206) *)

Record map_state : Type := mk_map_state {
  center : option (pyfloat * pyfloat);
  zoom : jvalue
}.

(** [v[k]] on a JSON value: only an object can be subscripted by a key. *)
Definition subscript (v : jvalue) (k : string) : result pyfloat :=
  match v with
  | JObj fields =>
      match fields !! k with
      | Some x => OK x
      | None => Raise KeyError
      end
  | JNum _ => Raise TypeError
  end.

Definition update_map_state (relayout : option (gmap string jvalue))
    (current_state : map_state) : result map_state :=
  match relayout with
  | None => OK current_state
  | Some relayout =>
      let center0 := center current_state in
      let zoom0 := zoom current_state in
      center1 ←
        match relayout !! "mapbox.center" with
        | Some c =>
            la ← subscript c "lat"; lo ← subscript c "lon"; OK (Some (la, lo))
        | None => OK center0
        end;
      let zoom1 :=
        match relayout !! "mapbox.zoom" with
        | Some z => z
        | None => zoom0
        end in
      OK (mk_map_state center1 zoom1)
  end.

Definition advance_slider (g : globals) (n : Z) (current_value : Z) : Z :=
  if current_value <? Z.of_nat (length (unique_times g)) - 1
  then current_value + 1
  else current_value.

(** [K] ticks of the interval, the slider value fed back each time. *)
Fixpoint ticks (g : globals) (K : nat) (n : Z) (current_value : Z) : Z :=
  match K with
  | O => current_value
  | S K' => ticks g K' (n + 1) (advance_slider g (n + 1) current_value)
  end.

(** ** The sorting kinds

    [sort_values("time")] is called without a [kind], at line 40 and at
    line 105.  pandas then sorts the column with its default kind,
    "quicksort": it asks numpy for [argsort(kind="quicksort")] on the
    datetime64 values of the column and takes the rows of the frame in
    the order of the positions returned.  numpy's quicksort on positions
    is the routine [aquicksort] of npysort/quicksort.cpp, modelled in
    [Numpy] below.  The kinds "mergesort" and "stable", which the code
    does not ask for, keep rows of equal time in frame order; they are
    [stable_sort_values]. *)

Fixpoint insert_row (leb : row -> row -> bool) (x : row) (l : list row)
  : list row :=
  match l with
  | [] => [x]
  | y :: r => if leb x y then x :: l else y :: insert_row leb x r
  end.

Definition insertion_sort (leb : row -> row -> bool) (l : list row)
  : list row :=
  foldr (insert_row leb) [] l.

Definition time_leb (a b : row) : bool := dt_leb (time a.2) (time b.2).

Definition stable_sort_values : list row -> list row :=
  insertion_sort time_leb.

(** numpy's [aquicksort(v, tosort, num)]: an introsort of the array
    [tosort] of positions into the column [v].  A range of more than 17
    positions is split around the median of its first, middle and last
    element, the larger part is put on a stack and the smaller one is
    split further; a range of at most 17 positions is sorted by
    insertion.  The pointers [pl], [pr], [pi], [pj] of the routine are
    positions in [tosort] here.  Two things are left out: the heap sort
    that takes over a range once more than [2 * floor(log2 num)] splits
    are nested ([aquicksort] is [None] there), and the kernels for
    particular processors that a numpy build may run in place of this
    routine. *)
Module Numpy.

Section Argsort.

(** The column.  numpy compares datetime64 values as the integers they
    are stored as, a missing time last; the column has no missing time,
    so this is the order of the datetimes. *)
Variable v : list datetime.

Definition val (i : nat) : datetime :=
  default (mk_datetime 0 0 0 0 0 0) (v !! i).

Definition less (a b : datetime) : bool := negb (dt_leb b a).

(** The position stored at [p]. *)
Definition at_pos (a : list nat) (p : nat) : nat := default 0%nat (a !! p).

Definition INTP_SWAP (a : list nat) (p q : nat) : list nat :=
  <[q := at_pos a p]> (<[p := at_pos a q]> a).

Definition SMALL_QUICKSORT : nat := 16.

(** The index of the highest set bit. *)
Definition npy_get_msb (n : nat) : Z := Z.of_nat (Nat.log2 n).

(** The three conditional swaps that leave the median of the first,
    middle and last element in the middle. *)
Definition median3 (a : list nat) (pl pm pr : nat) : list nat :=
  let a := if less (val (at_pos a pm)) (val (at_pos a pl))
           then INTP_SWAP a pm pl else a in
  let a := if less (val (at_pos a pr)) (val (at_pos a pm))
           then INTP_SWAP a pr pm else a in
  if less (val (at_pos a pm)) (val (at_pos a pl))
  then INTP_SWAP a pm pl else a.

(** [do ++pi; while (less(v[*pi], vp))] *)
Fixpoint scan_up (fuel : nat) (a : list nat) (vp : datetime) (pi : nat)
  : nat :=
  match fuel with
  | O => pi
  | S fuel =>
      let pi := S pi in
      if less (val (at_pos a pi)) vp then scan_up fuel a vp pi else pi
  end.

(** [do --pj; while (less(vp, v[*pj]))] *)
Fixpoint scan_down (fuel : nat) (a : list nat) (vp : datetime) (pj : nat)
  : nat :=
  match fuel with
  | O => pj
  | S fuel =>
      let pj := (pj - 1)%nat in
      if less vp (val (at_pos a pj)) then scan_down fuel a vp pj else pj
  end.

(** The [for (;;)] loop of the split: scan from both ends, stop when the
    scans meet, else swap and go on. *)
Fixpoint exchange (fuel : nat) (a : list nat) (vp : datetime) (pi pj : nat)
  : list nat * nat :=
  match fuel with
  | O => (a, pi)
  | S fuel =>
      let pi := scan_up (length a) a vp pi in
      let pj := scan_down (length a) a vp pj in
      if (pj <=? pi)%nat then (a, pi)
      else exchange fuel (INTP_SWAP a pi pj) vp pi pj
  end.

(** One split of the range [pl..pr]: the array after it and the final
    place [pi] of the pivot. *)
Definition partition (a : list nat) (pl pr : nat) : list nat * nat :=
  let pm := (pl + (pr - pl) / 2)%nat in
  let a := median3 a pl pm pr in
  let vp := val (at_pos a pm) in
  let pj := (pr - 1)%nat in
  let a := INTP_SWAP a pm pj in
  let '(a, pi) := exchange (length a) a vp pl pj in
  (INTP_SWAP a pi (pr - 1), pi).

(** The inner loop of the insertion sort: [vi] moves left past every
    element that is greater.  [before] lists the elements to its left,
    nearest first. *)
Fixpoint sift (vi : nat) (before : list nat) : list nat :=
  match before with
  | pk :: rest =>
      if less (val vi) (val pk) then pk :: sift vi rest else vi :: before
  | [] => [vi]
  end.

Definition insertion (seg : list nat) : list nat :=
  rev (fold_left (fun before vi => sift vi before) seg []).

(** The insertion sort of the range [pl..pr]. *)
Definition insertion_range (a : list nat) (pl pr : nat) : list nat :=
  take pl a ++ insertion (take (S pr - pl) (drop pl a)) ++ drop (S pr) a.

(** A range waiting on the stack, with its depth budget. *)
Definition span : Type := nat * nat * Z.

(** [while ((pr - pl) > SMALL_QUICKSORT)]: split, push the larger part,
    go on with the smaller. *)
Fixpoint partition_while (fuel : nat) (a : list nat) (pl pr : nat)
    (stack : list span) (cdepth : Z)
  : list nat * nat * nat * list span :=
  match fuel with
  | O => (a, pl, pr, stack)
  | S fuel =>
      if (SMALL_QUICKSORT <? pr - pl)%nat then
        let '(a, pi) := partition a pl pr in
        if (pi - pl <? pr - pi)%nat
        then partition_while fuel a pl (pi - 1)%nat
               ((S pi, pr, cdepth - 1) :: stack) (cdepth - 1)
        else partition_while fuel a (S pi) pr
               ((pl, (pi - 1)%nat, cdepth - 1) :: stack) (cdepth - 1)
      else (a, pl, pr, stack)
  end.

(** The outer [while (1)]: one round per range taken up. *)
Fixpoint aquicksort_loop (fuel : nat) (a : list nat) (pl pr : nat)
    (stack : list span) (cdepth : Z) : option (list nat) :=
  match fuel with
  | O => None
  | S fuel =>
      if cdepth <? 0 then None
      else
        let '(a, pl, pr, stack) :=
          partition_while (length a) a pl pr stack cdepth in
        let a := insertion_range a pl pr in
        match stack with
        | [] => Some a
        | (pl, pr, cdepth) :: stack =>
            aquicksort_loop fuel a pl pr stack cdepth
        end
  end.

Definition aquicksort (tosort : list nat) : option (list nat) :=
  let num := length tosort in
  aquicksort_loop (S num) tosort 0 (num - 1) [] (2 * npy_get_msb num).

(** [argsort]: the positions [0..num-1], sorted. *)
Definition argsort : option (list nat) := aquicksort (seq 0 (length v)).

End Argsort.

End Numpy.

(** [DataFrame.take(indexer)]: the rows at the given positions.  The
    positions [argsort] returns are all inside the frame. *)
Definition no_row : row :=
  (0%nat, mk_obs (mk_datetime 0 0 0 0 0 0) "" Fnan Fnan "").

Definition take_rows (l : list row) (indexer : list nat) : list row :=
  map (fun i => default no_row (l !! i)) indexer.

(** [sort_values("time")] with the default kind.  Where the model of the
    sort has no answer the frame is returned as it is; no statement
    below is about such a frame. *)
Definition quicksort_sort_values (l : list row) : list row :=
  match Numpy.argsort (map (fun r : row => time r.2) l) with
  | Some indexer => take_rows l indexer
  | None => l
  end.

(** ** Start-up, layout and the remaining callbacks *)

(** Lines 13-52 in one piece: read the log, then build the globals. *)
Definition startup (sort_values : list row -> list row) (hash : string -> Z)
    (lines : list string) : result globals :=
  data ← load lines; init_globals sort_values hash data.

(** [l[i]] for an integer [i]: a negative index counts from the end,
    [IndexError] outside [-len(l), len(l))]. *)
Definition getitem_list {A} (l : list A) (i : Z) : result A :=
  let n := Z.of_nat (length l) in
  let j := if i <? 0 then i + n else i in
  if (0 <=? j) && (j <? n) then PyStr.item l (Z.to_nat j)
  else Raise IndexError.

(** A value or an exception inside code that runs against the globals. *)
Definition lift {A} (r : result A) : py A := fun g => (r, g).

(** Lines 152-156.  The store always holds both keys, so the two [get]
    calls are the two fields. *)
Definition update_map (sort_values : list row -> list row)
    (mean : list pyfloat -> pyfloat) (slider_value : Z)
    (map_state0 : map_state) : py figure :=
  let center := center map_state0 in
  let zoom := zoom map_state0 in
  times ← read unique_times;
  current_time ← lift (getitem_list times slider_value);
  create_figure sort_values mean current_time center zoom.

(** Lines 185-195.  [triggered] is the list [ctx.triggered], each
    element given by its ["prop_id"]. *)
Definition control_interval (triggered : list string) (play pause fast : Z)
  : result (bool * Z * string) :=
  match triggered with
  | [] => OK (true, 1000, "Paused ⏸️")
  | prop_id :: _ =>
      button_id ← PyStr.item (PyStr.split "." prop_id) 0;
      if String.eqb button_id "play-btn" then OK (false, 1000, "Playing ▶️")
      else if String.eqb button_id "fast-btn" then
        OK (false, 100, "Fast-forward ⏩")
      else OK (true, 1000, "Paused ⏸️")
  end.

(** [range(start, stop, step)] for [step >= 1] *)
Fixpoint range_go (fuel : nat) (i stop step : Z) : list Z :=
  match fuel with
  | O => []
  | S f => if i <? stop then i :: range_go f (i + step) stop step else []
  end.

Definition range (start stop step : Z) : list Z :=
  range_go (Z.to_nat (stop - start)) start stop step.

(** [t.strftime("%H:%M")] *)
Definition two_digits (n : Z) : string :=
  String (ascii_of_nat (Z.to_nat (48 + n / 10)))
    (String (ascii_of_nat (Z.to_nat (48 + n mod 10))) EmptyString).

Definition strftime_HM (t : datetime) : string :=
  two_digits (hour t) +:+ ":" +:+ two_digits (minute t).

(** Lines 76-80: the last slider position and the marks, as the pairs
    of the dict in insertion order. *)
Definition slider_max (g : globals) : Z :=
  Z.of_nat (length (unique_times g)) - 1.

Definition slider_marks (g : globals) : result (list (Z * string)) :=
  let n := Z.of_nat (length (unique_times g)) in
  mapM (fun i => t ← getitem_list (unique_times g) i; OK (i, strftime_HM t))
    (range 0 n (Z.max 1 (n / 10))).

(** ** Objects

    Frames, lists, dicts and figures are objects: names and variables
    hold references to them, and a method either builds a new object or
    changes the one it is called on.  [df.sort_values("time",
    inplace=True)] (line 40) changes the frame [df] refers to; boolean
    indexing, [sort_values] without [inplace], [groupby(...).tail] build
    new frames; [fig.add_trace] and [fig.update_layout] change the
    figure they are called on. *)

Inductive object : Type :=
| ODataFrame (rows : list row)
| OList (times : list datetime)
| OArray (tags : list string)
| ODict (d : gmap string string)
| OFigure (traces : list trace) (layout : option (pyfloat * pyfloat * jvalue)).

(** The objects that exist, by reference; references are handed out in
    order, [next] is the first one not yet used. *)
Record store : Type := mk_store {
  objects : gmap nat object;
  next : nat
}.

(** The module level names and the objects they refer to. *)
Record names : Type := mk_names {
  n_df : nat;
  n_unique_times : nat;
  n_unique_tags : nat;
  n_tag_colors : nat
}.

(** Code that runs against the store. *)
Definition proc (A : Type) : Type := store -> result A * store.

#[global] Instance proc_ret : MRet proc := fun _ a s => (OK a, s).
#[global] Instance proc_bind : MBind proc := fun _ _ k m s =>
  match m s with
  | (OK a, s') => k a s'
  | (Raise e, s') => (Raise e, s')
  end.

Definition throw {A} (e : pyerr) : proc A := fun s => (Raise e, s).

(** A new object. *)
Definition new (o : object) : proc nat := fun s =>
  (OK (next s), mk_store (<[next s := o]> (objects s)) (S (next s))).

(** The object behind a reference. *)
Definition deref (l : nat) : proc object := fun s =>
  match objects s !! l with
  | Some o => (OK o, s)
  | None => (Raise TypeError, s)
  end.

(** A change to the object behind a reference. *)
Definition assign (l : nat) (o : object) : proc unit := fun s =>
  (OK tt, mk_store (<[l := o]> (objects s)) (next s)).

Fixpoint for_each {A} (l : list A) (body : A -> proc unit) : proc unit :=
  match l with
  | [] => mret tt
  | x :: rest => _ ← body x; for_each rest body
  end.

Definition frame_rows (l : nat) : proc (list row) :=
  o ← deref l;
  match o with
  | ODataFrame rows => mret rows
  | _ => throw TypeError
  end.

(** [frame[mask]] *)
Definition frame_getitem (l : nat) (mask : row -> Prop)
    `{!forall r, Decision (mask r)} : proc nat :=
  rows ← frame_rows l; new (ODataFrame (filter mask rows)).

(** [frame.sort_values("time")] *)
Definition frame_sort_values (sort_values : list row -> list row) (l : nat)
  : proc nat :=
  rows ← frame_rows l; new (ODataFrame (sort_values rows)).

(** [frame.sort_values("time", inplace=True)] *)
Definition frame_sort_values_inplace (sort_values : list row -> list row)
    (l : nat) : proc unit :=
  rows ← frame_rows l; assign l (ODataFrame (sort_values rows)).

(** [frame.groupby("user").tail(1)] *)
Definition frame_groupby_user_tail1 (l : nat) : proc nat :=
  rows ← frame_rows l; new (ODataFrame (groupby_user_tail1 rows)).

(** [d[k]] on a dict object *)
Definition dict_getitem (l : nat) (k : string) : proc string :=
  o ← deref l;
  match o with
  | ODict d =>
      match d !! k with
      | Some v => mret v
      | None => throw KeyError
      end
  | _ => throw TypeError
  end.

(** [go.Figure()] *)
Definition figure_new : proc nat := new (OFigure [] None).

(** [fig.add_trace(tr)] *)
Definition figure_add_trace (l : nat) (tr : trace) : proc unit :=
  o ← deref l;
  match o with
  | OFigure traces layout => assign l (OFigure (traces ++ [tr]) layout)
  | _ => throw TypeError
  end.

(** [fig.update_layout(mapbox=dict(center=dict(lat=.., lon=..), zoom=..))] *)
Definition figure_update_layout (l : nat) (center_lat center_lon : pyfloat)
    (zoom : jvalue) : proc unit :=
  o ← deref l;
  match o with
  | OFigure traces _ =>
      assign l (OFigure traces (Some (center_lat, center_lon, zoom)))
  | _ => throw TypeError
  end.

(** Lines 39-52 on objects: the frame is sorted in place, the list, the
    array and the dict are new objects, and the four names are bound. *)
Definition module_init (sort_values : list row -> list row)
    (hash : string -> Z) (data : list Observation) : proc names :=
  df ← new (ODataFrame (DataFrame data));
  _ ← match data with
      | [] => throw KeyError
      | _ => frame_sort_values_inplace sort_values df
      end;
  rows ← frame_rows df;
  unique_times ← new (OList (sorted (unique (map (fun r : row => time r.2) rows))));
  let tags := unique (map (fun r : row => tag r.2) rows) in
  unique_tags ← new (OArray tags);
  tag_colors ← new (ODict (build_tag_colors hash tags));
  mret (mk_names df unique_times unique_tags tag_colors).

(** Lines 102-139 on objects: [create_figure] returns the reference of
    the figure it built.  The function has no [global] statement, so
    the names keep the references they have. *)
Definition create_figure_obj (sort_values : list row -> list row)
    (mean : list pyfloat -> pyfloat) (g : names) (current_time : datetime)
    (center : option (pyfloat * pyfloat)) (zoom : jvalue) : proc nat :=
  masked ← frame_getitem (n_df g) (fun r => dt_le (time r.2) current_time);
  sorted_df ← frame_sort_values sort_values masked;
  current_df ← frame_groupby_user_tail1 sorted_df;
  fig ← figure_new;
  shown ← frame_rows current_df;
  _ ← for_each (unique (map (fun r : row => tag r.2) shown)) (fun tg =>
        tag_df ← frame_getitem current_df (fun r => tag r.2 = tg);
        tag_rows ← frame_rows tag_df;
        color ← dict_getitem (n_tag_colors g) tg;
        figure_add_trace fig
          (mk_trace (map (fun r : row => lon r.2) tag_rows)
                    (map (fun r : row => lat r.2) tag_rows)
                    color
                    (map (fun r : row => user r.2) tag_rows)
                    tg));
  let '(center_lat, center_lon) :=
    match center with
    | None =>
        match shown with
        | _ :: _ => (mean (map (fun r : row => lat r.2) shown),
                     mean (map (fun r : row => lon r.2) shown))
        | [] => (Fdec true 41289 (-3), Fdec false 174762 (-3))
        end
    | Some c => c
    end in
  _ ← figure_update_layout fig center_lat center_lon zoom;
  mret fig.

(** ** Vocabulary of the properties *)

(** The center an event carries: the latitude and longitude under its
    "mapbox.center" key. *)
Definition event_center (ev : gmap string jvalue)
  : option (pyfloat * pyfloat) :=
  match ev !! "mapbox.center" with
  | Some (JObj fields) =>
      match fields !! "lat", fields !! "lon" with
      | Some la, Some lo => Some (la, lo)
      | _, _ => None
      end
  | _ => None
  end.

(** Events as the map sends them: a "mapbox.center" entry, when there is
    one, is an object with a latitude and a longitude. *)
Definition wf_relayout (relayout : option (gmap string jvalue)) : Prop :=
  match relayout with
  | Some ev => is_Some (ev !! "mapbox.center") -> is_Some (event_center ev)
  | None => True
  end.

(** Lines the loop passes over whatever its state: after stripping, the
    line is not a header, and either it does not start with a bracket, or
    its bracketed time parses and what follows has no colon. *)
Definition skipped_line (raw : string) : bool :=
  let line := PyStr.strip raw in
  negb (is_header line)
  && (negb (PyStr.startswith line "[")
      || match PyStr.index "]" line with
         | OK ts_end =>
             match Strptime.strptime (PyStr.slice 1 ts_end line) with
             | OK _ => negb (PyStr.contains ":" (PyStr.slice_from (ts_end + 2) line))
             | Raise _ => false
             end
         | Raise _ => false
         end).

(** An observation that comes from an entry line of [lines] with a
    header line somewhere before it. *)
Definition from_entry_after_header (lines : list string) (o : Observation)
  : Prop :=
  exists pre raw post,
    lines = pre ++ raw :: post
    /\ is_header (PyStr.strip raw) = false
    /\ PyStr.startswith (PyStr.strip raw) "[" = true
    /\ entry (PyStr.strip raw) = OK (Some o)
    /\ exists h, In h pre /\ is_header (PyStr.strip h) = true.

(** Number of occurrences of a character in a string. *)
Fixpoint count_char (c : ascii) (s : string) : nat :=
  match s with
  | EmptyString => O
  | String d s' => if Ascii.eqb c d then S (count_char c s') else count_char c s'
  end.

(** Two states of the loading loop that agree on what the loop looks at:
    whether a header has been seen, and the observations so far. *)
Definition same_progress (a b : loader) : Prop :=
  truthy (current_time a) = truthy (current_time b) /\ data a = data b.

(** The part of an entry line after the bracketed time. *)
Definition entry_rest (line : string) : result string :=
  ts_end ← PyStr.index "]" line;
  _ ← Strptime.strptime (PyStr.slice 1 ts_end line);
  OK (PyStr.slice_from (ts_end + 2) line).

(** What a call of [create_figure_obj] comes to: the figure behind the
    reference it returns, or the exception. *)
Definition outcome (r : result nat * store) : result figure :=
  match r.1 with
  | OK l =>
      match objects r.2 !! l with
      | Some (OFigure traces (Some (center_lat, center_lon, zoom))) =>
          OK (mk_figure traces center_lat center_lon zoom)
      | _ => Raise TypeError
      end
  | Raise e => Raise e
  end.

(** Code that, run in a store whose references start at [n] or later,
    leaves every object below [n] as it is, does not take references
    back, and returns values with the property [Q]. *)
Definition writes_above (n : nat) {A} (m : proc A) (Q : A -> Prop) : Prop :=
  forall s, (n <= next s)%nat ->
    (next s <= next (m s).2)%nat
    /\ (forall l, (l < n)%nat -> objects (m s).2 !! l = objects s !! l)
    /\ (forall a, (m s).1 = OK a -> Q a).

(** What the loop of [create_figure] relies on: the frame shown, the
    color table and the figure under construction are where they are. *)
Definition building (cdf tc fig : nat) (shown : list row)
    (d : gmap string string) (s : store) (acc : list trace) : Prop :=
  objects s !! cdf = Some (ODataFrame shown)
  /\ objects s !! tc = Some (ODict d)
  /\ objects s !! fig = Some (OFigure acc None)
  /\ (cdf < next s)%nat /\ (tc < next s)%nat /\ (fig < next s)%nat
  /\ fig <> cdf /\ fig <> tc.

(** A lowercase hexadecimal digit. *)
Definition is_hex (c : ascii) : bool :=
  PyStr.isdigit c || Strptime.between "a" "f" c.

(** The trace of one tag over the rows shown, with a given color. *)
Definition trace_of (shown : list row) (color : string) (tg : string) : trace :=
  let tag_df := filter (fun r : row => tag r.2 = tg) shown in
  mk_trace (map (fun r : row => lon r.2) tag_df)
           (map (fun r : row => lat r.2) tag_df)
           color
           (map (fun r : row => user r.2) tag_df)
           tg.

(** The center of the map for the rows shown and a stored center. *)
Definition center_of (mean : list pyfloat -> pyfloat) (shown : list row)
    (center : option (pyfloat * pyfloat)) : pyfloat * pyfloat :=
  match center with
  | Some c => c
  | None =>
      match shown with
      | _ :: _ => (mean (map (fun r : row => lat r.2) shown),
                   mean (map (fun r : row => lon r.2) shown))
      | [] => (Fdec true 41289 (-3), Fdec false 174762 (-3))
      end
  end.

(** ** Sample inputs *)

Definition header_noon : string :=
  "--- Snapshot at 2024-01-01 12:00:00 UTC ---".
Definition entry_alpha : string :=
  "[2024-01-01 12:00:05] Alpha1: 174.76,-41.29".
Definition obs_alpha : Observation :=
  mk_obs (mk_datetime 2024 1 1 12 0 5) "Alpha1"
    (Fdec false 17476 (-2)) (Fdec true 4129 (-2)) "ALP".

Definition noon (s : Z) : datetime := mk_datetime 2024 1 1 12 0 s.

Definition alpha_first : Observation :=
  mk_obs (noon 5) "Alpha1" (Fdec false 17476 (-2)) (Fdec true 4129 (-2)) "ALP".
Definition bravo : Observation :=
  mk_obs (noon 0) "Bravo2" (Fdec false 17480 (-2)) (Fdec true 4130 (-2)) "BRA".
Definition alpha_second : Observation :=
  mk_obs (noon 5) "Alpha1" (Fdec false 17477 (-2)) (Fdec true 4128 (-2)) "ALP".

Definition sample_data : list Observation := [alpha_first; bravo; alpha_second].

(** A log of eighteen entries: seventeen at 12:00:05, the second and
    third of them both of "Alpha1", and one at 12:00:09. *)
Definition crowd_line (u : string) : string :=
  "[2024-01-01 12:00:05] " +:+ u +:+ ": 174.80,-41.30".

Definition crowd_log : list string :=
  [header_noon; crowd_line "Echo0"; entry_alpha;
   "[2024-01-01 12:00:05] Alpha1: 174.77,-41.28"]
  ++ map crowd_line
       ["Delta3"; "Foxtrot4"; "Golf5"; "Hotel6"; "India7"; "Juliett8";
        "Kilo9"; "Lima10"; "Mike11"; "Oscar12"; "Papa13"; "Quebec14";
        "Romeo15"; "Tango16"]
  ++ ["[2024-01-01 12:00:09] Sierra17: 174.80,-41.30"].

Definition bystander (t : datetime) (u : string) : Observation :=
  mk_obs t u (Fdec false 17480 (-2)) (Fdec true 4130 (-2)) (tag_of u).

Definition crowd : list Observation :=
  [bystander (noon 5) "Echo0"; alpha_first; alpha_second]
  ++ map (bystander (noon 5))
       ["Delta3"; "Foxtrot4"; "Golf5"; "Hotel6"; "India7"; "Juliett8";
        "Kilo9"; "Lima10"; "Mike11"; "Oscar12"; "Papa13"; "Quebec14";
        "Romeo15"; "Tango16"]
  ++ [bystander (noon 9) "Sierra17"].

Definition sample_globals : globals :=
  mk_globals [(1%nat, bravo); (0%nat, alpha_first); (2%nat, alpha_second)]
    [noon 0; noon 5] ["BRA"; "ALP"]
    (build_tag_colors (fun _ => 0) ["BRA"; "ALP"]).

Definition sample_names : names := mk_names 0 1 2 3.

Definition sample_store : store :=
  mk_store
    (<[3%nat := ODict (build_tag_colors (fun _ => 0) ["BRA"; "ALP"])]>
       (<[2%nat := OArray ["BRA"; "ALP"]]>
          (<[1%nat := OList [noon 0; noon 5]]>
             (<[0%nat := ODataFrame
                           [(1%nat, bravo); (0%nat, alpha_first);
                            (2%nat, alpha_second)]]> ∅))))
    4.

Definition three_times : globals :=
  mk_globals []
    [mk_datetime 2024 1 1 12 0 0; mk_datetime 2024 1 1 12 0 5;
     mk_datetime 2024 1 1 12 0 10] [] ∅.

Definition pan_event : gmap string jvalue :=
  {[ "mapbox.center" :=
       JObj {[ "lat" := Fdec true 4129 (-2); "lon" := Fdec false 17476 (-2) ]} ]}.

Example tag_of_Alpha1 : tag_of "Alpha1" = "ALP".
Proof. reflexivity. Qed.
Example split_at : PyStr.split " at " "--- Snapshot at 2024 UTC ---" = ["--- Snapshot"; "2024 UTC ---"].
Proof. reflexivity. Qed.
Example split_colon_end : PyStr.split ":" "a:" = ["a"; ""].
Proof. reflexivity. Qed.
Example strip_ex : PyStr.strip "  a b
" = "a b".
Proof. reflexivity. Qed.
Example fmt_ex : format_06x 255 = "0000ff".
Proof. reflexivity. Qed.
Example fmt_ex2 : format_06x 16777214 = "fffffe".
Proof. reflexivity. Qed.
Example fmt_ex0 : format_06x 0 = "000000".
Proof. reflexivity. Qed.
Example strptime_ex :
  Strptime.strptime "2024-01-01 12:00:05" = OK (mk_datetime 2024 1 1 12 0 5).
Proof. reflexivity. Qed.
Example strptime_short :
  Strptime.strptime "2024-1-5  1:2:3" = OK (mk_datetime 2024 1 5 1 2 3).
Proof. reflexivity. Qed.
Example strptime_bad1 : Strptime.strptime "2024-02-30 12:00:05" = Raise ValueError.
Proof. reflexivity. Qed.
Example strptime_bad2 : Strptime.strptime "2024-01-01 12:00:055" = Raise ValueError.
Proof. reflexivity. Qed.
Example strptime_bad3 : Strptime.strptime "2024-01-01 24:00:05" = Raise ValueError.
Proof. reflexivity. Qed.
Example float_ex1 : PyFloat.float "174.76" = OK (Fdec false 17476 (-2)).
Proof. reflexivity. Qed.
Example float_ex2 : PyFloat.float " -41.29 " = OK (Fdec true 4129 (-2)).
Proof. reflexivity. Qed.
Example float_ex3 : PyFloat.float "1_0.5e-3" = OK (Fdec false 105 (-4)).
Proof. reflexivity. Qed.
Example float_ex4 : PyFloat.float "abc" = Raise ValueError.
Proof. reflexivity. Qed.
Example float_ex5 : PyFloat.float "" = Raise ValueError.
Proof. reflexivity. Qed.
Example float_ex6 : PyFloat.float "-Infinity" = OK (Finf true).
Proof. reflexivity. Qed.
Example float_ex7 : PyFloat.float "1e" = Raise ValueError.
Proof. reflexivity. Qed.
Example float_ex8 : PyFloat.float ".5" = OK (Fdec false 5 (-1)).
Proof. reflexivity. Qed.
Example float_ex9 : PyFloat.float "5." = OK (Fdec false 5 0).
Proof. reflexivity. Qed.
Example float_ex10 : PyFloat.float "_5" = Raise ValueError.
Proof. reflexivity. Qed.
Example float_ex11 : PyFloat.float "." = Raise ValueError.
Proof. reflexivity. Qed.
(** The separator FS is a blank for [strip] and not for [float]. *)
Example float_ex12 :
  PyStr.strip (String (ascii_of_nat 28) "2.5") = "2.5"
  /\ PyFloat.float (String (ascii_of_nat 28) "2.5") = Raise ValueError.
Proof. split; reflexivity. Qed.
Example load_ex :
  load ["--- Snapshot at 2024-01-01 12:00:00 UTC ---";
        "[2024-01-01 12:00:05] Alpha1: 174.76,-41.29"]
  = OK [mk_obs (mk_datetime 2024 1 1 12 0 5) "Alpha1"
          (Fdec false 17476 (-2)) (Fdec true 4129 (-2)) "ALP"].
Proof. reflexivity. Qed.

Example init_globals_empty :
  init_globals stable_sort_values (fun _ => 0) [] = Raise KeyError.
Proof. reflexivity. Qed.

Example init_globals_sample :
  init_globals stable_sort_values (fun _ => 0) sample_data
  = OK (mk_globals
          [(1%nat, bravo); (0%nat, alpha_first); (2%nat, alpha_second)]
          [noon 0; noon 5] ["BRA"; "ALP"]
          (build_tag_colors (fun _ => 0) ["BRA"; "ALP"])).
Proof. vm_compute. reflexivity. Qed.

Example create_figure_sample :
  forall g, init_globals stable_sort_values (fun _ => 0) sample_data = OK g ->
  create_figure stable_sort_values (fun l => default Fnan (head l))
    (noon 5) None (JNum (Fdec false 12 0)) g
  = (OK (mk_figure
           [mk_trace [lon bravo] [lat bravo] "#000000" ["Bravo2"] "BRA";
            mk_trace [lon alpha_second] [lat alpha_second] "#000000"
              ["Alpha1"] "ALP"]
           (lat bravo) (lon bravo) (JNum (Fdec false 12 0))), g).
Proof. intros g H. vm_compute in H. injection H as <-. vm_compute. reflexivity. Qed.

(** ** The entity classifier *)

Lemma chars_join (l : list ascii) : PyStr.chars (PyStr.join l) = l.
Proof. apply list_ascii_of_string_of_list_ascii. Qed.

Lemma join_chars (s : string) : PyStr.join (PyStr.chars s) = s.
Proof. apply string_of_list_ascii_of_string. Qed.

Lemma spec_tag_go_firstn (n : nat) (s : string) :
  PyStr.join
    (map PyStr.upper_char (firstn n (List.filter PyStr.isalpha (PyStr.chars s))))
  = spec_tag_go n s.
Proof.
  revert n. induction s as [|c s IH]; intros n.
  - destruct n; reflexivity.
  - destruct n as [|n].
    + reflexivity.
    + cbn [PyStr.chars list_ascii_of_string List.filter spec_tag_go].
      fold (PyStr.chars s).
      destruct (PyStr.isalpha c).
      * cbn [firstn map PyStr.join string_of_list_ascii].
        f_equal. apply IH.
      * apply IH.
Qed.

(** C5.  For an ASCII identifier the tag computed by the loader is the
    one the specification describes: the first three (or fewer)
    alphabetic characters of the identifier, in order and uppercased,
    every other character passed over; and the identifier "Alpha1" has
    the tag "ALP". *)
Theorem tag_of_first_three_alpha (user : string) :
  is_ascii user = true ->
  tag_of user = spec_tag user /\ tag_of "Alpha1" = "ALP".
Proof.
  intros _. split; [|reflexivity].
  unfold tag_of, spec_tag, PyStr.upper.
  rewrite chars_join. apply spec_tag_go_firstn.
Qed.

Lemma tag_of_first_three_alpha_witness :
  tag_of "x-ray 7 Bravo" = spec_tag "x-ray 7 Bravo" /\ tag_of "Alpha1" = "ALP".
Proof.
  apply (tag_of_first_three_alpha "x-ray 7 Bravo"). reflexivity.
Defined.

Lemma filter_isalpha_none (l : list ascii) :
  (forall c, In c l -> PyStr.isalpha c = false) ->
  List.filter PyStr.isalpha l = [].
Proof.
  induction l as [|c l IH]; intros H; [reflexivity|].
  cbn. rewrite (H c) by (left; reflexivity).
  apply IH. intros d Hd. apply H. right. exact Hd.
Qed.

Lemma build_tag_colors_acc (hash : string -> Z) (tags : list string)
    (m : gmap string string) (t : string) :
  m !! t = Some (tag_color hash t) \/ In t tags ->
  fold_left (fun m tag => <[tag := tag_color hash tag]> m) tags m !! t
  = Some (tag_color hash t).
Proof.
  revert m. induction tags as [|x tags IH]; intros m H.
  - destruct H as [H|[]]. exact H.
  - cbn [fold_left]. apply IH.
    destruct (decide (x = t)) as [->|Hne].
    + left. apply lookup_insert_eq.
    + destruct H as [H|[H|H]].
      * left. rewrite lookup_insert_ne by exact Hne. exact H.
      * contradiction.
      * right. exact H.
Qed.

Lemma build_tag_colors_lookup (hash : string -> Z) (tags : list string)
    (t : string) :
  In t tags -> build_tag_colors hash tags !! t = Some (tag_color hash t).
Proof. intros H. apply build_tag_colors_acc. right. exact H. Qed.

(** C9.  An ASCII identifier without any alphabetic character has the
    empty tag; the empty tag matches neither "BDR" nor "ETG", so its color is
    the one derived from its hash, and that is the color [tag_colors]
    holds for it whenever the tag occurs among [unique_tags]. *)
Theorem no_alpha_tag_and_color (hash : string -> Z) (user : string)
    (unique_tags : list string) :
  is_ascii user = true ->
  (forall c, In c (PyStr.chars user) -> PyStr.isalpha c = false) ->
  tag_of user = ""
  /\ tag_color hash (tag_of user) = "#" +:+ format_06x (hash "" mod 16777215)
  /\ (In (tag_of user) unique_tags ->
      build_tag_colors hash unique_tags !! tag_of user
      = Some ("#" +:+ format_06x (hash "" mod 16777215))).
Proof.
  intros _ H.
  assert (Ht : tag_of user = "").
  { unfold tag_of. rewrite filter_isalpha_none by exact H. reflexivity. }
  rewrite Ht. split; [reflexivity|]. split; [reflexivity|].
  intros Hin. rewrite build_tag_colors_lookup by exact Hin. reflexivity.
Qed.

Lemma no_alpha_tag_and_color_witness :
  tag_of "42-07" = ""
  /\ tag_color (fun _ => 0) (tag_of "42-07") = "#000000"
  /\ (In (tag_of "42-07") ["ALP"; ""] ->
      build_tag_colors (fun _ => 0) ["ALP"; ""] !! tag_of "42-07"
      = Some "#000000").
Proof.
  apply (no_alpha_tag_and_color (fun _ => 0) "42-07" ["ALP"; ""]);
    [reflexivity|].
  intros c Hc. cbn in Hc.
  repeat (destruct Hc as [<-|Hc]; [reflexivity|]). destruct Hc.
Defined.

(** ** The playback cursor *)

Lemma ticks_min (g : globals) (K : nat) (n v : Z) :
  0 <= v <= Z.of_nat (length (unique_times g)) - 1 ->
  ticks g K n v
  = Z.min (v + Z.of_nat K) (Z.of_nat (length (unique_times g)) - 1).
Proof.
  revert n v. induction K as [|K IH]; intros n v Hv.
  - cbn [ticks]. lia.
  - cbn [ticks]. unfold advance_slider.
    destruct (Z.ltb_spec v (Z.of_nat (length (unique_times g)) - 1)).
    + rewrite IH by lia. lia.
    + rewrite IH by lia. lia.
Qed.

(** C7.  With the cursor in [0, N-1], N the length of the timeline, a
    tick adds one below N-1 and changes nothing at N-1; K >= N ticks
    from 0 end at N-1. *)
Theorem advance_slider_clamped (g : globals) (n v : Z) (K : nat) :
  0 <= v <= Z.of_nat (length (unique_times g)) - 1 ->
  (v < Z.of_nat (length (unique_times g)) - 1 ->
     advance_slider g n v = v + 1)
  /\ (v = Z.of_nat (length (unique_times g)) - 1 ->
     advance_slider g n v = v)
  /\ (Z.of_nat (length (unique_times g)) <= Z.of_nat K ->
     ticks g K n 0 = Z.of_nat (length (unique_times g)) - 1).
Proof.
  intros Hv. repeat split.
  - intros Hlt. unfold advance_slider.
    destruct (Z.ltb_spec v (Z.of_nat (length (unique_times g)) - 1)); lia.
  - intros Heq. unfold advance_slider.
    destruct (Z.ltb_spec v (Z.of_nat (length (unique_times g)) - 1)); lia.
  - intros HK. rewrite ticks_min by lia. lia.
Qed.

Lemma advance_slider_clamped_witness :
  (1 < 2 -> advance_slider three_times 7 1 = 2)
  /\ (1 = 2 -> advance_slider three_times 7 1 = 1)
  /\ (3 <= 5 -> ticks three_times 5 7 0 = 2).
Proof.
  apply (advance_slider_clamped three_times 7 1 5). cbn. lia.
Defined.

(** ** The viewport state *)

(** C8.  The update replaces the center exactly when the event carries
    one and the zoom exactly when the event carries one; the other field
    keeps its prior value, and no event at all returns the prior state. *)
Theorem update_map_state_frame (relayout : option (gmap string jvalue))
    (current_state : map_state) :
  wf_relayout relayout ->
  exists st' : map_state,
    update_map_state relayout current_state = OK st'
    /\ (relayout = None -> st' = current_state)
    /\ (forall ev, relayout = Some ev ->
        center st' = match event_center ev with
                     | Some c => Some c
                     | None => center current_state
                     end
        /\ zoom st' = match ev !! "mapbox.zoom" with
                      | Some z => z
                      | None => zoom current_state
                      end).
Proof.
  intros Hwf. destruct relayout as [ev|].
  - cbn in Hwf. unfold update_map_state, event_center in *.
    destruct (ev !! "mapbox.center") as [c|] eqn:Hc.
    + destruct (Hwf (ex_intro _ c eq_refl)) as [xy Hxy].
      destruct c as [x|fields]; [discriminate|].
      cbn [subscript].
      destruct (fields !! "lat") as [la|] eqn:Hla; [|discriminate].
      destruct (fields !! "lon") as [lo|] eqn:Hlo; [|discriminate].
      eexists. split; [reflexivity|]. split; [discriminate|].
      intros ev' Hev. injection Hev as <-. rewrite Hc, Hla, Hlo. cbn.
      split; reflexivity.
    + eexists. split; [reflexivity|]. split; [discriminate|].
      intros ev' Hev. injection Hev as <-. rewrite Hc. cbn.
      split; reflexivity.
  - exists current_state. split; [reflexivity|]. split; [reflexivity|].
    intros ev Hev. discriminate.
Qed.

Lemma update_map_state_frame_witness :
  exists st' : map_state,
    update_map_state (Some pan_event) (mk_map_state None (JNum (Fdec false 12 0)))
    = OK st'
    /\ (Some pan_event = None -> st' = mk_map_state None (JNum (Fdec false 12 0)))
    /\ (forall ev, Some pan_event = Some ev ->
        center st' = match event_center ev with
                     | Some c => Some c
                     | None => None
                     end
        /\ zoom st' = match ev !! "mapbox.zoom" with
                      | Some z => z
                      | None => JNum (Fdec false 12 0)
                      end).
Proof.
  apply (update_map_state_frame (Some pan_event)
           (mk_map_state None (JNum (Fdec false 12 0)))).
  intros _. vm_compute. eexists. reflexivity.
Defined.

(** ** The loading loop *)

Lemma loader_run_app (st : loader) (l1 l2 : list string) :
  loader_run st (l1 ++ l2)
  = (st' ← loader_run st l1; loader_run st' l2).
Proof.
  revert st. induction l1 as [|raw l1 IH]; intros st; [reflexivity|].
  cbn [app loader_run].
  destruct (loader_step st raw) as [st1|e]; cbn; [apply IH|reflexivity].
Qed.

Lemma loader_step_skipped (st : loader) (raw : string) :
  skipped_line raw = true -> loader_step st raw = OK st.
Proof.
  unfold skipped_line, loader_step, entry. intros H.
  apply andb_prop in H as [Hh H].
  apply negb_true_iff in Hh. rewrite Hh.
  destruct (PyStr.startswith (PyStr.strip raw) "["); cbn [negb orb andb] in *;
    [|reflexivity].
  destruct (truthy (current_time st)); [|reflexivity].
  destruct (PyStr.index "]" (PyStr.strip raw)) as [ts_end|]; [|discriminate].
  cbn.
  destruct (Strptime.strptime _) as [t|]; [|discriminate].
  cbn. apply negb_true_iff in H. rewrite H. reflexivity.
Qed.

(** C3, as the code has it.  In a log of ASCII lines, a line that,
    stripped, starts with neither "--- Snapshot" nor "[", and a "[" line
    whose bracketed time parses and whose remainder has no colon, is
    passed over: the log loads as if the line were not there. *)
Theorem skipped_line_is_dropped (pre post : list string) (raw : string) :
  (forall l, In l (pre ++ raw :: post) -> is_ascii l = true) ->
  skipped_line raw = true ->
  load (pre ++ raw :: post) = load (pre ++ post).
Proof.
  intros _ H. unfold load. rewrite !loader_run_app.
  destruct (loader_run loader_init pre) as [st|e]; [|reflexivity].
  cbn. rewrite (loader_step_skipped st raw H). reflexivity.
Qed.

Lemma skipped_line_is_dropped_witness :
  load ([header_noon] ++ "[2024-01-01 12:00:03] radio check" :: [entry_alpha])
  = load ([header_noon] ++ [entry_alpha]).
Proof.
  apply (skipped_line_is_dropped [header_noon]
           [entry_alpha] "[2024-01-01 12:00:03] radio check").
  - intros l [<-|[<-|[<-|[]]]]; vm_compute; reflexivity.
  - vm_compute. reflexivity.
Defined.

(** C3 as stated fails: an entry line whose coordinate fields are not
    numbers is not skipped.  [float] raises, nothing catches it, and the
    load as a whole fails, where skipping the line would have loaded the
    entry that follows. *)
Lemma malformed_coordinates_abort_load :
  load [header_noon; "[2024-01-01 12:00:03] Bravo2: north,east"; entry_alpha]
  = Raise ValueError
  /\ load [header_noon; entry_alpha] = OK [obs_alpha].
Proof. split; vm_compute; reflexivity. Qed.

Lemma loader_run_no_header (pre : list string) :
  (forall l, In l pre -> is_header (PyStr.strip l) = false) ->
  loader_run loader_init pre = OK loader_init.
Proof.
  induction pre as [|raw pre IH]; intros H; [reflexivity|].
  cbn [loader_run]. unfold loader_step at 1.
  rewrite (H raw) by (left; reflexivity).
  cbn [loader_init current_time truthy]. rewrite andb_false_r. cbn.
  apply IH. intros l Hl. apply H. right. exact Hl.
Qed.

Lemma from_entry_after_header_app (seen more : list string) (o : Observation) :
  from_entry_after_header seen o -> from_entry_after_header (seen ++ more) o.
Proof.
  intros (pre & raw & post & -> & H1 & H2 & H3 & H4).
  exists pre, raw, (post ++ more).
  rewrite <- app_assoc. cbn. auto.
Qed.

Lemma loader_run_provenance (lines seen : list string) (st st' : loader) :
  (truthy (current_time st) = true ->
   exists h, In h seen /\ is_header (PyStr.strip h) = true) ->
  (forall o, In o (data st) -> from_entry_after_header seen o) ->
  loader_run st lines = OK st' ->
  forall o, In o (data st') -> from_entry_after_header (seen ++ lines) o.
Proof.
  revert seen st. induction lines as [|raw lines IH]; intros seen st Hh Hd Hrun.
  - cbn in Hrun. injection Hrun as <-. rewrite app_nil_r. exact Hd.
  - cbn [loader_run] in Hrun.
    destruct (loader_step st raw) as [st1|e] eqn:Hstep; [|discriminate].
    cbn in Hrun.
    replace (seen ++ raw :: lines) with ((seen ++ [raw]) ++ lines)
      by (rewrite <- app_assoc; reflexivity).
    apply (IH (seen ++ [raw]) st1); [| |exact Hrun].
    + (* a header is known whenever [current_time] is set *)
      intros Ht. unfold loader_step in Hstep.
      destruct (is_header (PyStr.strip raw)) eqn:Hraw.
      * exists raw. split; [apply in_or_app; right; left; reflexivity|exact Hraw].
      * assert (Hkeep : current_time st1 = current_time st).
        { destruct (PyStr.startswith (PyStr.strip raw) "[" && truthy (current_time st)).
          - destruct (entry (PyStr.strip raw)) as [[ob|]|]; cbn in Hstep;
              try discriminate; injection Hstep as <-; reflexivity.
          - injection Hstep as <-; reflexivity. }
        rewrite Hkeep in Ht. destruct (Hh Ht) as (h & Hin & Hhd).
        exists h. split; [apply in_or_app; left; exact Hin|exact Hhd].
    + (* every observation has an entry line behind it *)
      intros o Ho. unfold loader_step in Hstep.
      destruct (is_header (PyStr.strip raw)) eqn:Hraw.
      * destruct (header_time (PyStr.strip raw)); cbn in Hstep; [|discriminate].
        injection Hstep as <-. cbn in Ho.
        apply from_entry_after_header_app, Hd, Ho.
      * destruct (PyStr.startswith (PyStr.strip raw) "[") eqn:Hbr;
          cbn [andb] in Hstep.
        -- destruct (truthy (current_time st)) eqn:Ht.
           ++ destruct (entry (PyStr.strip raw)) as [[ob|]|] eqn:He;
                cbn in Hstep; try discriminate; injection Hstep as <-.
              ** cbn in Ho. apply in_app_or in Ho as [Ho|[<-|[]]].
                 --- apply from_entry_after_header_app, Hd, Ho.
                 --- exists seen, raw, []. repeat split; auto.
              ** apply from_entry_after_header_app, Hd, Ho.
           ++ injection Hstep as <-.
              apply from_entry_after_header_app, Hd, Ho.
        -- injection Hstep as <-.
           apply from_entry_after_header_app, Hd, Ho.
Qed.

(** C6.  In a log of ASCII lines, the lines that come before the first
    header leave no trace: the log loads as if they were not there.  And
    every observation of a loaded log is what [entry] makes of one of
    its entry lines, with a header line before that line. *)
Theorem entries_need_a_header (pre post : list string) :
  (forall l, In l (pre ++ post) -> is_ascii l = true) ->
  (forall l, In l pre -> is_header (PyStr.strip l) = false) ->
  load (pre ++ post) = load post
  /\ (forall data o,
        load (pre ++ post) = OK data -> In o data ->
        from_entry_after_header (pre ++ post) o).
Proof.
  intros _ H. split.
  - unfold load. rewrite loader_run_app, (loader_run_no_header pre H).
    reflexivity.
  - intros data0 o Hload Ho. unfold load in Hload.
    destruct (loader_run loader_init (pre ++ post)) as [st|e] eqn:Hrun;
      [|discriminate].
    cbn in Hload. injection Hload as <-.
    apply (loader_run_provenance (pre ++ post) [] loader_init st);
      [discriminate|intros ? []|exact Hrun|exact Ho].
Qed.

Lemma entries_need_a_header_witness :
  load ([entry_alpha] ++ [header_noon; entry_alpha])
  = load [header_noon; entry_alpha]
  /\ (forall data o,
        load ([entry_alpha] ++ [header_noon; entry_alpha]) = OK data ->
        In o data ->
        from_entry_after_header ([entry_alpha] ++ [header_noon; entry_alpha]) o).
Proof.
  apply (entries_need_a_header [entry_alpha] [header_noon; entry_alpha]).
  - intros l [<-|[<-|[<-|[]]]]; vm_compute; reflexivity.
  - intros l [<-|[]]; vm_compute; reflexivity.
Defined.

(** ** Order on datetimes *)

Lemma lex_leb_refl (a : list Z) : lex_leb a a = true.
Proof.
  induction a as [|x a IH]; [reflexivity|].
  cbn. rewrite Z.eqb_refl, IH. apply orb_true_r.
Qed.

Lemma lex_leb_total (a b : list Z) : lex_leb a b = true \/ lex_leb b a = true.
Proof.
  revert b. induction a as [|x a IH]; intros [|y b]; cbn; auto.
  destruct (Z.ltb_spec x y); [auto|].
  destruct (Z.ltb_spec y x); [auto|].
  assert (x = y) as -> by lia. rewrite Z.eqb_refl. cbn. apply IH.
Qed.

Lemma lex_leb_trans (a b c : list Z) :
  lex_leb a b = true -> lex_leb b c = true -> lex_leb a c = true.
Proof.
  revert b c. induction a as [|x a IH]; intros [|y b] [|z c]; cbn; auto;
    try discriminate.
  intros H1 H2.
  apply orb_true_iff in H1 as [H1|H1]; apply orb_true_iff in H2 as [H2|H2];
    try apply andb_true_iff in H1 as [E1 H1];
    try apply andb_true_iff in H2 as [E2 H2];
    apply orb_true_iff.
  - left. lia.
  - left. lia.
  - left. lia.
  - right. apply andb_true_iff. split; [lia|]. exact (IH b c H1 H2).
Qed.

Lemma dt_le_refl (a : datetime) : dt_le a a.
Proof. apply lex_leb_refl. Qed.

Lemma dt_le_total (a b : datetime) : dt_le a b \/ dt_le b a.
Proof. apply lex_leb_total. Qed.

Lemma dt_le_trans (a b c : datetime) : dt_le a b -> dt_le b c -> dt_le a c.
Proof. apply lex_leb_trans. Qed.

Lemma dt_lt_le (a b : datetime) : dt_lt a b -> dt_le a b.
Proof.
  unfold dt_lt. intros H. destruct (dt_le_total a b) as [H'|H']; [exact H'|].
  unfold dt_le in H'. congruence.
Qed.

#[global] Instance dt_le_row_trans : Transitive dt_le_row.
Proof. intros a b c. apply dt_le_trans. Qed.

(** ** groupby("user").tail(1) *)

Lemma existsb_same_user (r : row) (l : list row) :
  existsb (same_user r) l = true
  <-> exists r', In r' l /\ user r'.2 = user r.2.
Proof.
  rewrite existsb_exists. unfold same_user. split; intros (r' & Hin & H); exists r';
    (split; [exact Hin|]); apply String.eqb_eq; exact H.
Qed.

Lemma groupby_in (l : list row) (r : row) :
  In r (groupby_user_tail1 l) -> In r l.
Proof.
  induction l as [|x l IH]; cbn [groupby_user_tail1]; [auto|].
  destruct (existsb (same_user x) l); cbn [In]; intuition.
Qed.

Lemma groupby_last (l : list row) (r : row) :
  In r (groupby_user_tail1 l) ->
  exists l1 l2, l = l1 ++ r :: l2
    /\ forall r', In r' l2 -> user r'.2 <> user r.2.
Proof.
  induction l as [|x l IH]; cbn [groupby_user_tail1 In]; [intros []|].
  destruct (existsb (same_user x) l) eqn:Hex.
  - intros H. destruct (IH H) as (l1 & l2 & -> & Hl2).
    exists (x :: l1), l2. split; [reflexivity|exact Hl2].
  - intros [<-|H].
    + exists [], l. split; [reflexivity|].
      intros r' Hin Hu.
      assert (existsb (same_user x) l = true)
        by (apply existsb_same_user; eauto).
      congruence.
    + destruct (IH H) as (l1 & l2 & -> & Hl2).
      exists (x :: l1), l2. split; [reflexivity|exact Hl2].
Qed.

Lemma groupby_covers (l : list row) (r : row) :
  In r l -> exists r', In r' (groupby_user_tail1 l) /\ user r'.2 = user r.2.
Proof.
  revert r. induction l as [|x l IH]; intros r;
    cbn [groupby_user_tail1 In]; [intros []|].
  intros [->|H].
  - destruct (existsb (same_user r) l) eqn:Hex.
    + apply existsb_same_user in Hex as (r' & Hin & Hu).
      destruct (IH r' Hin) as (r'' & Hin' & Hu').
      exists r''. split; [exact Hin'|congruence].
    + exists r. split; [left; reflexivity|reflexivity].
  - destruct (IH r H) as (r' & Hin & Hu).
    exists r'. split; [|exact Hu].
    destruct (existsb (same_user x) l); [exact Hin|right; exact Hin].
Qed.

Lemma groupby_nodup (l : list row) :
  List.NoDup (map (fun r => user r.2) (groupby_user_tail1 l)).
Proof.
  induction l as [|x l IH]; cbn [groupby_user_tail1 map]; [constructor|].
  destruct (existsb (same_user x) l) eqn:Hex; [exact IH|].
  cbn [map]. constructor; [|exact IH].
  intros Hin. apply in_map_iff in Hin as (r' & Hu & Hin).
  apply groupby_in in Hin.
  assert (existsb (same_user x) l = true)
    by (apply existsb_same_user; eauto).
  congruence.
Qed.

(** ** Frames *)

Lemma DataFrame_in (data : list Observation) (r : row) :
  In r (DataFrame data) <-> data !! r.1 = Some r.2.
Proof.
  unfold DataFrame. rewrite <- list_elem_of_In, elem_of_lookup_imap.
  split.
  - intros (i & o & -> & H). exact H.
  - intros H. exists r.1, r.2. split; [destruct r; reflexivity|exact H].
Qed.

Lemma DataFrame_obs (data : list Observation) (o : Observation) :
  In o data <-> exists i, In (i, o) (DataFrame data).
Proof.
  rewrite <- list_elem_of_In, list_elem_of_lookup.
  split; intros (i & H); exists i; apply (DataFrame_in data (i, o)); exact H.
Qed.




(** ** Snapshot reconstruction *)

Section Snapshot.

Variable sort_values : list row -> list row.

(** What [sort_values] promises for any sorting kind: the rows come
    back rearranged, in nondecreasing order of time. *)
Hypothesis sort_values_perm : forall l, Permutation (sort_values l) l.
Hypothesis sort_values_sorted : forall l, Sorted dt_le_row (sort_values l).

Lemma sort_values_in (l : list row) (r : row) :
  In r (sort_values l) <-> In r l.
Proof.
  split; apply Permutation_in;
    [apply sort_values_perm|apply Permutation_sym, sort_values_perm].
Qed.

Lemma snapshot_in (df : list row) (t : datetime) (r : row) :
  In r (snapshot sort_values df t) -> In r df /\ dt_le (time r.2) t.
Proof.
  unfold snapshot. intros H.
  apply groupby_in, sort_values_in, list_elem_of_In, list_elem_of_filter in H.
  destruct H as [Ht H]. split; [apply list_elem_of_In, H|exact Ht].
Qed.

Lemma snapshot_present (df : list row) (t : datetime) (u : string) :
  (exists r, In r (snapshot sort_values df t) /\ user r.2 = u)
  <-> (exists r, In r df /\ user r.2 = u /\ dt_le (time r.2) t).
Proof.
  split.
  - intros (r & Hin & Hu). apply snapshot_in in Hin as [Hin Ht]. eauto.
  - intros (r & Hin & Hu & Ht). unfold snapshot. subst u.
    apply groupby_covers.
    apply sort_values_in, list_elem_of_In, list_elem_of_filter.
    split; [exact Ht|apply list_elem_of_In, Hin].
Qed.

Lemma snapshot_max (df : list row) (t : datetime) (r r' : row) :
  In r (snapshot sort_values df t) ->
  In r' df -> user r'.2 = user r.2 -> dt_le (time r'.2) t ->
  dt_le (time r'.2) (time r.2).
Proof.
  unfold snapshot. intros Hr Hin Hu Ht.
  set (F := filter (fun r => dt_le (time r.2) t) df) in *.
  destruct (groupby_last _ _ Hr) as (l1 & l2 & Hsplit & Hl2).
  assert (Hs : StronglySorted dt_le_row (l1 ++ r :: l2)).
  { rewrite <- Hsplit.
    apply Sorted.Sorted_StronglySorted;
      [exact dt_le_row_trans|apply sort_values_sorted]. }
  assert (Hr' : In r' (l1 ++ r :: l2)).
  { rewrite <- Hsplit. apply sort_values_in, list_elem_of_In.
    apply list_elem_of_filter. split; [exact Ht|apply list_elem_of_In, Hin]. }
  apply in_app_or in Hr' as [H1|[->|H2]].
  - apply (StronglySorted_app_1_elem_of dt_le_row l1 (r :: l2) r' r Hs).
    + apply list_elem_of_In, H1.
    + left.
  - apply dt_le_refl.
  - destruct (Hl2 r' H2 Hu).
Qed.

(** C1.  At every cursor time, an entity is shown exactly when one of
    its parsed observations has a time at or before the cursor, it is
    shown once, and the row shown for it is one of its parsed
    observations, at or before the cursor and no earlier than any other
    observation of the entity at or before the cursor. *)
Theorem snapshot_latest_per_entity (data : list Observation) (t : datetime) :
  (forall u,
     (exists r, In r (snapshot sort_values (sort_values (DataFrame data)) t)
                /\ user r.2 = u)
     <-> (exists o, In o data /\ user o = u /\ dt_le (time o) t))
  /\ List.NoDup (map (fun r => user r.2)
                   (snapshot sort_values (sort_values (DataFrame data)) t))
  /\ (forall r,
        In r (snapshot sort_values (sort_values (DataFrame data)) t) ->
        data !! r.1 = Some r.2
        /\ dt_le (time r.2) t
        /\ forall o, In o data -> user o = user r.2 -> dt_le (time o) t ->
             dt_le (time o) (time r.2)).
Proof.
  split; [|split].
  - intros u. rewrite snapshot_present. split.
    + intros (r & Hin & Hu & Ht). exists r.2.
      split; [|auto].
      apply DataFrame_obs. exists r.1.
      apply (proj1 (sort_values_in _ _)) in Hin. destruct r; exact Hin.
    + intros (o & Hin & Hu & Ht).
      apply DataFrame_obs in Hin as (i & Hin).
      exists (i, o). split; [apply sort_values_in, Hin|auto].
  - apply groupby_nodup.
  - intros r Hr. destruct (snapshot_in _ _ _ Hr) as [Hin Ht].
    split; [apply DataFrame_in, sort_values_in, Hin|]. split; [exact Ht|].
    intros o Ho Hu Hot.
    apply DataFrame_obs in Ho as (i & Ho).
    apply (snapshot_max _ t r (i, o) Hr); [apply sort_values_in, Ho|exact Hu|exact Hot].
Qed.

(** C2.  An entity shown at a cursor time is shown at every later
    cursor time. *)
Theorem snapshot_monotone (data : list Observation) (t1 t2 : datetime)
    (u : string) :
  dt_lt t1 t2 ->
  (exists r, In r (snapshot sort_values (sort_values (DataFrame data)) t1)
             /\ user r.2 = u) ->
  exists r, In r (snapshot sort_values (sort_values (DataFrame data)) t2)
            /\ user r.2 = u.
Proof.
  intros Hlt H. apply snapshot_present. apply snapshot_present in H.
  destruct H as (r & Hin & Hu & Ht). exists r.
  split; [exact Hin|]. split; [exact Hu|].
  apply (dt_le_trans _ t1); [exact Ht|apply dt_lt_le, Hlt].
Qed.

End Snapshot.

(** ** The stable kinds meet the contract *)

Section InsertionSort.

Variable leb : row -> row -> bool.
Hypothesis leb_total : forall a b, leb a b = false -> leb b a = true.

Lemma insert_row_perm (x : row) (l : list row) :
  Permutation (insert_row leb x l) (x :: l).
Proof.
  induction l as [|y l IH]; cbn [insert_row]; [reflexivity|].
  destruct (leb x y); [reflexivity|].
  rewrite IH. apply perm_swap.
Qed.

Lemma insertion_sort_perm (l : list row) :
  Permutation (insertion_sort leb l) l.
Proof.
  induction l as [|x l IH]; cbn; [reflexivity|].
  fold (insertion_sort leb l). rewrite insert_row_perm, IH. reflexivity.
Qed.

Lemma insert_row_sorted (x : row) (l : list row) :
  Sorted (fun a b => leb a b = true) l ->
  Sorted (fun a b => leb a b = true) (insert_row leb x l).
Proof.
  induction 1 as [|y l Hl IH Hhd]; cbn [insert_row].
  - repeat constructor.
  - destruct (leb x y) eqn:Hxy.
    + constructor; [constructor; assumption|constructor; exact Hxy].
    + constructor; [exact IH|].
      destruct l as [|z l]; cbn [insert_row].
      * constructor. apply leb_total, Hxy.
      * destruct (leb x z); constructor.
        -- apply leb_total, Hxy.
        -- inversion Hhd; assumption.
Qed.

Lemma insertion_sort_sorted (l : list row) :
  Sorted (fun a b => leb a b = true) (insertion_sort leb l).
Proof.
  induction l as [|x l IH]; cbn; [constructor|].
  apply insert_row_sorted, IH.
Qed.

End InsertionSort.

Lemma time_leb_total (a b : row) : time_leb a b = false -> time_leb b a = true.
Proof.
  unfold time_leb. intros H.
  destruct (dt_le_total (time a.2) (time b.2)) as [H'|H']; [|exact H'].
  unfold dt_le in H'. congruence.
Qed.

Lemma stable_sort_values_perm (l : list row) :
  Permutation (stable_sort_values l) l.
Proof. apply insertion_sort_perm. Qed.

Lemma stable_sort_values_sorted (l : list row) :
  Sorted dt_le_row (stable_sort_values l).
Proof. apply (insertion_sort_sorted time_leb time_leb_total). Qed.

Lemma insert_row_stable (k : datetime) (x : row) (l : list row) :
  filter (fun r : row => time r.2 = k) (insert_row time_leb x l)
  = filter (fun r : row => time r.2 = k) (x :: l).
Proof.
  induction l as [|y l IH]; cbn [insert_row]; [reflexivity|].
  destruct (time_leb x y) eqn:Hxy; [reflexivity|].
  rewrite filter_cons, IH, !filter_cons.
  destruct (decide (time y.2 = k)) as [Hy|]; [|reflexivity].
  destruct (decide (time x.2 = k)) as [Hx|]; [|reflexivity].
  unfold time_leb in Hxy. rewrite Hx, Hy in Hxy.
  pose proof (dt_le_refl k) as Hk. unfold dt_le in Hk. congruence.
Qed.

Lemma stable_sort_values_stable (l : list row) (k : datetime) :
  filter (fun r : row => time r.2 = k) (stable_sort_values l)
  = filter (fun r : row => time r.2 = k) l.
Proof.
  induction l as [|x l IH]; [reflexivity|].
  unfold stable_sort_values, insertion_sort in *. cbn [foldr].
  rewrite insert_row_stable, !filter_cons, IH. reflexivity.
Qed.

Example sample_snapshot_stable :
  snapshot stable_sort_values (stable_sort_values (DataFrame sample_data)) (noon 5)
  = [(1%nat, bravo); (2%nat, alpha_second)].
Proof. vm_compute. reflexivity. Qed.

Example sample_snapshot_early :
  snapshot stable_sort_values (stable_sort_values (DataFrame sample_data)) (noon 2)
  = [(1%nat, bravo)].
Proof. vm_compute. reflexivity. Qed.

Lemma snapshot_latest_per_entity_witness :
  List.NoDup
    (map (fun r : row => user r.2)
       (snapshot stable_sort_values
          (stable_sort_values (DataFrame sample_data)) (noon 5))).
Proof.
  exact (proj1 (proj2
    (snapshot_latest_per_entity stable_sort_values
       stable_sort_values_perm stable_sort_values_sorted
       sample_data (noon 5)))).
Defined.

Lemma snapshot_monotone_witness :
  exists r,
    In r (snapshot stable_sort_values
            (stable_sort_values (DataFrame sample_data)) (noon 5))
    /\ user r.2 = "Bravo2".
Proof.
  apply (snapshot_monotone stable_sort_values stable_sort_values_perm
           sample_data (noon 2) (noon 5) "Bravo2").
  - vm_compute. reflexivity.
  - exists (1%nat, bravo). split; [vm_compute; left; reflexivity|reflexivity].
Defined.

(** ** The default sorting kind on short frames *)

Section ArgsortFacts.

Variable v : list datetime.







End ArgsortFacts.









Example sample_snapshot_quicksort :
  snapshot quicksort_sort_values
    (quicksort_sort_values (DataFrame sample_data)) (noon 5)
  = [(1%nat, bravo); (2%nat, alpha_second)].
Proof. vm_compute. reflexivity. Qed.


(** ** The default sorting kind on eighteen rows *)

Example crowd_loaded : load crowd_log = OK crowd.
Proof. vm_compute. reflexivity. Qed.

(** The order line 40 gives the frame: the split around the row in the
    middle has reversed the rows 1 to 15, which all have its time. *)
Example crowd_argsort :
  Numpy.argsort (map time crowd)
  = Some [0; 15; 14; 13; 12; 11; 10; 9; 8; 7; 6; 5; 4; 3; 2; 1; 16; 17]%nat.
Proof. vm_compute. reflexivity. Qed.


(** ** create_figure and the module globals *)

Lemma writes_above_ret (n : nat) {A} (a : A) (Q : A -> Prop) :
  Q a -> writes_above n (mret a) Q.
Proof.
  intros HQ s Hn. cbn. split; [lia|]. split; [reflexivity|].
  intros a' H. injection H as <-. exact HQ.
Qed.

Lemma writes_above_throw (n : nat) {A} (e : pyerr) (Q : A -> Prop) :
  writes_above n (throw e) Q.
Proof.
  intros s Hn. cbn. split; [lia|]. split; [reflexivity|]. discriminate.
Qed.

Lemma writes_above_bind (n : nat) {A B} (m : proc A) (k : A -> proc B)
    (Q : A -> Prop) (R : B -> Prop) :
  writes_above n m Q -> (forall a, Q a -> writes_above n (k a) R) ->
  writes_above n (m ≫= k) R.
Proof.
  intros Hm Hk s Hn. unfold mbind, proc_bind.
  destruct (Hm s Hn) as (Hnext & Hsame & HQ).
  destruct (m s) as [[a|e] s1]; cbn [fst snd] in *.
  - destruct (Hk a (HQ a eq_refl) s1) as (Hnext' & Hsame' & HR); [lia|].
    split; [lia|]. split; [|exact HR].
    intros l Hl. rewrite Hsame' by exact Hl. apply Hsame, Hl.
  - split; [exact Hnext|]. split; [exact Hsame|]. discriminate.
Qed.

Lemma writes_above_new (n : nat) (o : object) :
  writes_above n (new o) (fun l => (n <= l)%nat).
Proof.
  intros s Hn. cbn. split; [lia|]. split.
  - intros l Hl. apply lookup_insert_ne. lia.
  - intros a H. injection H as <-. exact Hn.
Qed.

Lemma writes_above_deref (n l : nat) :
  writes_above n (deref l) (fun _ => True).
Proof.
  intros s Hn. unfold deref. destruct (objects s !! l); cbn; auto.
Qed.

Lemma writes_above_assign (n l : nat) (o : object) :
  (n <= l)%nat -> writes_above n (assign l o) (fun _ => True).
Proof.
  intros Hl s Hn. cbn. split; [lia|]. split; [|auto].
  intros l' Hl'. apply lookup_insert_ne. lia.
Qed.

Lemma writes_above_for_each (n : nat) {A} (l : list A) (body : A -> proc unit) :
  (forall x, writes_above n (body x) (fun _ => True)) ->
  writes_above n (for_each l body) (fun _ => True).
Proof.
  intros Hb. induction l as [|x l IH]; cbn [for_each].
  - apply writes_above_ret. exact I.
  - eapply writes_above_bind; [apply Hb|]. intros _ _. exact IH.
Qed.

Lemma writes_above_frame_rows (n l : nat) :
  writes_above n (frame_rows l) (fun _ => True).
Proof.
  unfold frame_rows. eapply writes_above_bind; [apply writes_above_deref|].
  intros o _. destruct o;
    first [apply writes_above_ret; exact I | apply writes_above_throw].
Qed.

Lemma writes_above_frame_new (n l : nat) (f : list row -> list row) :
  writes_above n (rows ← frame_rows l; new (ODataFrame (f rows)))
    (fun l' => (n <= l')%nat).
Proof.
  eapply writes_above_bind; [apply writes_above_frame_rows|].
  intros rows _. apply writes_above_new.
Qed.

Lemma writes_above_dict_getitem (n l : nat) (k : string) :
  writes_above n (dict_getitem l k) (fun _ => True).
Proof.
  unfold dict_getitem. eapply writes_above_bind; [apply writes_above_deref|].
  intros o _. destruct o; try apply writes_above_throw.
  destruct (d !! k); [apply writes_above_ret; exact I|apply writes_above_throw].
Qed.

Lemma writes_above_figure_add_trace (n l : nat) (tr : trace) :
  (n <= l)%nat -> writes_above n (figure_add_trace l tr) (fun _ => True).
Proof.
  intros Hl. unfold figure_add_trace.
  eapply writes_above_bind; [apply writes_above_deref|].
  intros o _. destruct o; try apply writes_above_throw.
  apply writes_above_assign, Hl.
Qed.

Lemma writes_above_figure_update_layout (n l : nat) (la lo : pyfloat)
    (z : jvalue) :
  (n <= l)%nat -> writes_above n (figure_update_layout l la lo z) (fun _ => True).
Proof.
  intros Hl. unfold figure_update_layout.
  eapply writes_above_bind; [apply writes_above_deref|].
  intros o _. destruct o; try apply writes_above_throw.
  apply writes_above_assign, Hl.
Qed.

(** [create_figure] writes to the objects it builds and to no other. *)
Lemma create_figure_obj_writes_above (n : nat)
    (sort_values : list row -> list row) (mean : list pyfloat -> pyfloat)
    (g : names) (t : datetime) (c : option (pyfloat * pyfloat)) (z : jvalue) :
  writes_above n (create_figure_obj sort_values mean g t c z)
    (fun l => (n <= l)%nat).
Proof.
  unfold create_figure_obj, frame_getitem, frame_sort_values,
    frame_groupby_user_tail1, figure_new.
  eapply writes_above_bind; [apply (writes_above_frame_new n _ (filter _))|].
  intros masked _.
  eapply writes_above_bind; [apply writes_above_frame_new|].
  intros sorted_df _.
  eapply writes_above_bind; [apply writes_above_frame_new|].
  intros current_df _.
  eapply writes_above_bind; [apply writes_above_new|].
  intros fig Hfig. cbn beta in Hfig.
  eapply writes_above_bind; [apply writes_above_frame_rows|].
  intros shown _.
  eapply writes_above_bind.
  - apply writes_above_for_each. intros tg.
    eapply writes_above_bind; [apply (writes_above_frame_new n _ (filter _))|].
    intros tag_df _.
    eapply writes_above_bind; [apply writes_above_frame_rows|].
    intros tag_rows _.
    eapply writes_above_bind; [apply writes_above_dict_getitem|].
    intros color _. apply writes_above_figure_add_trace, Hfig.
  - intros _ _.
    destruct (match c with
              | Some c0 => c0
              | None => _
              end) as [center_lat center_lon].
    eapply writes_above_bind;
      [apply writes_above_figure_update_layout, Hfig|].
    intros _ _. apply writes_above_ret, Hfig.
Qed.

Lemma proc_bind_ok {A B} (m : proc A) (k : A -> proc B) (s s1 : store) (a : A) :
  m s = (OK a, s1) -> (m ≫= k) s = k a s1.
Proof. intros H. unfold mbind, proc_bind. rewrite H. reflexivity. Qed.

Lemma proc_bind_raise {A B} (m : proc A) (k : A -> proc B) (s s1 : store)
    (e : pyerr) :
  m s = (Raise e, s1) -> (m ≫= k) s = (Raise e, s1).
Proof. intros H. unfold mbind, proc_bind. rewrite H. reflexivity. Qed.

Lemma frame_rows_run (s : store) (l : nat) (rows : list row) :
  objects s !! l = Some (ODataFrame rows) -> frame_rows l s = (OK rows, s).
Proof.
  intros H. unfold frame_rows, mbind, proc_bind, deref. rewrite H. reflexivity.
Qed.

Lemma frame_new_run (s : store) (l : nat) (rows : list row)
    (f : list row -> list row) :
  objects s !! l = Some (ODataFrame rows) ->
  (rows ← frame_rows l; new (ODataFrame (f rows))) s
  = (OK (next s),
     mk_store (<[next s := ODataFrame (f rows)]> (objects s)) (S (next s))).
Proof.
  intros H. rewrite (proc_bind_ok _ _ s s rows (frame_rows_run s l rows H)).
  reflexivity.
Qed.

(** A loop that adds to an object against the list comprehension of the
    pure model: step by step they agree, so as a whole they do. *)
Lemma for_each_mapM {A B} (inv : store -> list B -> Prop)
    (pbody : A -> py B) (sbody : A -> proc unit) (gl : globals) :
  (forall x s acc, inv s acc ->
     match pbody x gl with
     | (OK b, gl') =>
         gl' = gl /\ exists s2, sbody x s = (OK tt, s2) /\ inv s2 (acc ++ [b])
     | (Raise e, _) => (sbody x s).1 = Raise e
     end) ->
  forall l s acc, inv s acc ->
    match mapM pbody l gl with
    | (OK bs, _) =>
        exists s', for_each l sbody s = (OK tt, s') /\ inv s' (acc ++ bs)
    | (Raise e, _) => (for_each l sbody s).1 = Raise e
    end.
Proof.
  intros Hstep. induction l as [|x l IH]; intros s acc Hinv.
  - cbn. exists s. split; [reflexivity|]. rewrite app_nil_r. exact Hinv.
  - cbn [mapM for_each]. unfold mbind, py_bind, proc_bind.
    specialize (Hstep x s acc Hinv).
    destruct (pbody x gl) as [[b|e] gl1].
    + destruct Hstep as (-> & s2 & Hs & Hinv2). rewrite Hs.
      specialize (IH s2 (acc ++ [b]) Hinv2).
      destruct (mapM pbody l gl) as [[bs|e] gl2].
      * destruct IH as (s' & Hrun & Hinv'). exists s'.
        split; [exact Hrun|]. cbn. rewrite <- app_assoc in Hinv'. exact Hinv'.
      * exact IH.
    + destruct (sbody x s) as [[u|e'] s2]; cbn in *; congruence.
Qed.

Lemma add_trace_step (cdf tc fig : nat) (shown : list row)
    (d : gmap string string) (gl : globals) (tg : string) (s : store)
    (acc : list trace) :
  tag_colors gl = d ->
  building cdf tc fig shown d s acc ->
  match (let tag_df := filter (fun r : row => tag r.2 = tg) shown in
         colors ← read tag_colors;
         color ← getitem colors tg;
         mret (mk_trace (map (fun r : row => lon r.2) tag_df)
                        (map (fun r : row => lat r.2) tag_df)
                        color
                        (map (fun r : row => user r.2) tag_df)
                        tg)) gl with
  | (OK b, gl') =>
      gl' = gl
      /\ exists s2,
           (tag_df ← frame_getitem cdf (fun r => tag r.2 = tg);
            tag_rows ← frame_rows tag_df;
            color ← dict_getitem tc tg;
            figure_add_trace fig
              (mk_trace (map (fun r : row => lon r.2) tag_rows)
                        (map (fun r : row => lat r.2) tag_rows)
                        color
                        (map (fun r : row => user r.2) tag_rows)
                        tg)) s = (OK tt, s2)
           /\ building cdf tc fig shown d s2 (acc ++ [b])
  | (Raise e, _) =>
      ((tag_df ← frame_getitem cdf (fun r => tag r.2 = tg);
        tag_rows ← frame_rows tag_df;
        color ← dict_getitem tc tg;
        figure_add_trace fig
          (mk_trace (map (fun r : row => lon r.2) tag_rows)
                    (map (fun r : row => lat r.2) tag_rows)
                    color
                    (map (fun r : row => user r.2) tag_rows)
                    tg)) s).1 = Raise e
  end.
Proof.
  intros Hd (Hc & Ht & Hf & Hcn & Htn & Hfn & Hfc & Hft).
  set (s1 := mk_store
               (<[next s := ODataFrame (filter (fun r : row => tag r.2 = tg) shown)]>
                  (objects s)) (S (next s))).
  assert (H1 : objects s1 !! next s
               = Some (ODataFrame (filter (fun r : row => tag r.2 = tg) shown)))
    by apply lookup_insert_eq.
  assert (Ht1 : objects s1 !! tc = Some (ODict d))
    by (cbn; rewrite lookup_insert_ne by lia; exact Ht).
  assert (Hf1 : objects s1 !! fig = Some (OFigure acc None))
    by (cbn; rewrite lookup_insert_ne by lia; exact Hf).
  rewrite (proc_bind_ok _ _ s s1 (next s))
    by (unfold frame_getitem; apply (frame_new_run s cdf shown (filter _) Hc)).
  rewrite (proc_bind_ok _ _ s1 s1 _ (frame_rows_run s1 (next s) _ H1)).
  cbn zeta. unfold mbind at 1, py_bind at 1, read at 1.
  unfold mbind at 1, py_bind at 1, getitem at 1. rewrite Hd.
  destruct (d !! tg) as [color|] eqn:Hcol.
  - cbn [mret py_ret]. split; [reflexivity|].
    rewrite (proc_bind_ok _ _ s1 s1 color)
      by (unfold dict_getitem, mbind, proc_bind, deref; rewrite Ht1, Hcol;
          reflexivity).
    unfold figure_add_trace, mbind, proc_bind, deref. rewrite Hf1.
    eexists. split; [reflexivity|].
    unfold building. cbn. repeat split; try lia; try assumption.
    + rewrite !lookup_insert_ne by lia. exact Hc.
    + rewrite lookup_insert_ne by congruence.
      rewrite lookup_insert_ne by lia. exact Ht.
    + apply lookup_insert_eq.
  - cbn [raise]. 
    rewrite (proc_bind_raise _ _ s1 s1 KeyError)
      by (unfold dict_getitem, mbind, proc_bind, deref; rewrite Ht1, Hcol;
          reflexivity).
    reflexivity.
Qed.

(** The figure [create_figure] builds on objects is the figure of the
    pure model on the rows of the frame and the entries of the dict the
    two names refer to; and it raises what the pure model raises. *)
Lemma create_figure_obj_outcome (sort_values : list row -> list row)
    (mean : list pyfloat -> pyfloat) (g : names) (t : datetime)
    (c : option (pyfloat * pyfloat)) (z : jvalue) (s : store)
    (gl : globals) :
  objects s !! n_df g = Some (ODataFrame (df gl)) ->
  objects s !! n_tag_colors g = Some (ODict (tag_colors gl)) ->
  (n_df g < next s)%nat -> (n_tag_colors g < next s)%nat ->
  outcome (create_figure_obj sort_values mean g t c z s)
  = (create_figure sort_values mean t c z gl).1.
Proof.
  intros Hdf Hcol Hdn Hcn.
  unfold create_figure_obj.
  set (shown := snapshot sort_values (df gl) t).
  (* the three frames and the empty figure *)
  unfold frame_getitem at 1.
  erewrite (proc_bind_ok _ _ s);
    [|apply (frame_new_run s (n_df g) (df gl)); exact Hdf].
  set (s1 := mk_store _ (S (next s))).
  unfold frame_sort_values.
  rewrite (proc_bind_ok _ _ s1 _ _
             (frame_new_run s1 (next s) _ sort_values (lookup_insert_eq _ _ _))).
  set (s2 := mk_store _ (S (next s1))).
  unfold frame_groupby_user_tail1.
  rewrite (proc_bind_ok _ _ s2 _ _
             (frame_new_run s2 (next s1) _ groupby_user_tail1
                (lookup_insert_eq _ _ _))).
  change (groupby_user_tail1 (sort_values (filter _ (df gl)))) with shown.
  set (s3 := mk_store _ (S (next s2))).
  unfold figure_new.
  erewrite (proc_bind_ok (new _) _ s3); [|reflexivity].
  set (s4 := mk_store _ (S (next s3))).
  assert (Hb : building (next s2) (n_tag_colors g) (next s3) shown
                 (tag_colors gl) s4 []).
  { unfold building. cbn. repeat split; try lia.
    - rewrite lookup_insert_ne by lia. apply lookup_insert_eq.
    - rewrite !lookup_insert_ne by lia. exact Hcol.
    - apply lookup_insert_eq. }
  rewrite (proc_bind_ok _ _ s4 s4 shown)
    by (apply frame_rows_run; apply Hb).
  (* the loop *)
  match goal with |- ?L = _ => set (lhs := L) end.
  unfold create_figure.
  unfold mbind at 1, py_bind at 1, read at 1. fold shown.
  unfold mbind at 1, py_bind at 1.
  match goal with
  | |- context [mapM ?pb ?l gl] => set (pbody := pb); set (tags := l)
  end.
  subst lhs.
  match goal with
  | |- context [for_each ?l ?sb] => set (sbody := sb); change l with tags
  end.
  pose proof (for_each_mapM
                (building (next s2) (n_tag_colors g) (next s3) shown
                   (tag_colors gl)) pbody sbody gl
                (fun tg s acc =>
                   add_trace_step (next s2) (n_tag_colors g) (next s3) shown
                     (tag_colors gl) gl tg s acc eq_refl)
                tags s4 [] Hb) as Hloop.
  destruct (mapM pbody tags gl) as [[traces|e] gl1].
  - destruct Hloop as (s5 & Hrun & Hb5). cbn [app] in Hb5.
    rewrite (proc_bind_ok _ _ s4 s5 tt Hrun).
    destruct (match c with
              | Some c0 => c0
              | None => _
              end) as [center_lat center_lon].
    destruct Hb5 as (_ & _ & Hfig & _).
    unfold figure_update_layout, mbind, proc_bind, deref. rewrite Hfig.
    unfold outcome. cbn. rewrite lookup_insert_eq. reflexivity.
  - match goal with
    | |- outcome ((?m ≫= ?k) s4) = _ =>
        destruct (m s4) as [[u|e'] s5] eqn:Hrun; cbn in Hloop;
        [discriminate|];
        rewrite (proc_bind_raise m k s4 s5 e' Hrun)
    end.
    unfold outcome. cbn. congruence.
Qed.

(** C10.  [create_figure] leaves every object that existed before the
    call as it was, the frame [df], the list [unique_times] and the
    dict [tag_colors] among them: it writes to the frames and the
    figure it builds itself.  A second call with the same cursor time,
    center and zoom therefore comes to the same figure (or the same
    exception) as the first, although it runs in a store that holds the
    objects of the first call as well. *)
Theorem create_figure_leaves_globals (sort_values : list row -> list row)
    (mean : list pyfloat -> pyfloat) (g : names) (current_time : datetime)
    (center : option (pyfloat * pyfloat)) (zoom : jvalue) (s : store)
    (rows : list row) (d : gmap string string) :
  objects s !! n_df g = Some (ODataFrame rows) ->
  objects s !! n_tag_colors g = Some (ODict d) ->
  (n_df g < next s)%nat -> (n_unique_times g < next s)%nat ->
  (n_tag_colors g < next s)%nat ->
  let call := create_figure_obj sort_values mean g current_time center zoom in
  (forall l, (l < next s)%nat -> objects (call s).2 !! l = objects s !! l)
  /\ objects (call s).2 !! n_df g = objects s !! n_df g
  /\ objects (call s).2 !! n_unique_times g = objects s !! n_unique_times g
  /\ objects (call s).2 !! n_tag_colors g = objects s !! n_tag_colors g
  /\ outcome (call (call s).2) = outcome (call s).
Proof.
  intros Hdf Hcol Hdn Hun Hcn call.
  destruct (create_figure_obj_writes_above (next s) sort_values mean g
              current_time center zoom s (le_n _)) as (Hnext & Hsame & _).
  fold call in Hnext, Hsame.
  split; [exact Hsame|]. repeat split; try (apply Hsame; assumption).
  unfold call.
  rewrite (create_figure_obj_outcome sort_values mean g current_time center
             zoom s (mk_globals rows [] [] d) Hdf Hcol Hdn Hcn).
  apply (create_figure_obj_outcome sort_values mean g current_time center
           zoom _ (mk_globals rows [] [] d)).
  - fold call. rewrite (Hsame _ Hdn). exact Hdf.
  - fold call. rewrite (Hsame _ Hcn). exact Hcol.
  - fold call. lia.
  - fold call. lia.
Qed.

Lemma module_init_sample :
  module_init stable_sort_values (fun _ => 0) sample_data (mk_store ∅ 0)
  = (OK sample_names, sample_store).
Proof. vm_compute. reflexivity. Qed.

(** The sort of line 40, for contrast, does change the frame it is
    called on. *)
Example sort_values_inplace_changes_df :
  objects (frame_sort_values_inplace stable_sort_values 0
             (mk_store {[ 0%nat := ODataFrame (DataFrame sample_data) ]} 1)).2
    !! 0%nat
  = Some (ODataFrame
            [(1%nat, bravo); (0%nat, alpha_first); (2%nat, alpha_second)]).
Proof. vm_compute. reflexivity. Qed.

Lemma create_figure_leaves_globals_witness :
  outcome (create_figure_obj stable_sort_values (fun _ => Fnan) sample_names
             (noon 5) None (JNum (Fdec false 12 0))
             (create_figure_obj stable_sort_values (fun _ => Fnan) sample_names
                (noon 5) None (JNum (Fdec false 12 0)) sample_store).2)
  = outcome (create_figure_obj stable_sort_values (fun _ => Fnan) sample_names
               (noon 5) None (JNum (Fdec false 12 0)) sample_store).
Proof.
  refine (proj2 (proj2 (proj2 (proj2
    (create_figure_leaves_globals stable_sort_values (fun _ => Fnan)
       sample_names (noon 5) None (JNum (Fdec false 12 0)) sample_store
       [(1%nat, bravo); (0%nat, alpha_first); (2%nat, alpha_second)]
       (build_tag_colors (fun _ => 0) ["BRA"; "ALP"]) _ _ _ _ _)))));
    vm_compute; first [reflexivity | lia].
Defined.

(** ** More on the loading loop *)

Lemma rstrip_idem (s : string) : PyStr.rstrip (PyStr.rstrip s) = PyStr.rstrip s.
Proof.
  induction s as [|c s IH]; [reflexivity|].
  cbn [PyStr.rstrip]. destruct (PyStr.rstrip s) as [|d r] eqn:Hr.
  - destruct (PyStr.isspace c) eqn:Hc; [reflexivity|].
    cbn [PyStr.rstrip]. rewrite Hc. reflexivity.
  - cbn [PyStr.rstrip] in *. rewrite IH. reflexivity.
Qed.

Lemma lstrip_head (s : string) :
  match PyStr.lstrip s with
  | EmptyString => True
  | String c _ => PyStr.isspace c = false
  end.
Proof.
  induction s as [|c s IH]; [exact I|].
  cbn [PyStr.lstrip]. destruct (PyStr.isspace c) eqn:Hc; [exact IH|exact Hc].
Qed.

Lemma lstrip_rstrip_head (s : string) :
  match s with
  | EmptyString => True
  | String c _ => PyStr.isspace c = false
  end ->
  PyStr.lstrip (PyStr.rstrip s) = PyStr.rstrip s.
Proof.
  destruct s as [|c s]; [reflexivity|]. intros Hc.
  cbn [PyStr.rstrip]. destruct (PyStr.rstrip s).
  - rewrite Hc. cbn [PyStr.lstrip]. rewrite Hc. reflexivity.
  - cbn [PyStr.lstrip]. rewrite Hc. reflexivity.
Qed.

Lemma strip_idem (s : string) : PyStr.strip (PyStr.strip s) = PyStr.strip s.
Proof.
  unfold PyStr.strip.
  rewrite (lstrip_rstrip_head (PyStr.lstrip s) (lstrip_head s)).
  apply rstrip_idem.
Qed.

Lemma upper_char_alpha (c : ascii) :
  PyStr.isalpha c = true -> PyStr.isupper (PyStr.upper_char c) = true.
Proof.
  destruct c as [[] [] [] [] [] [] [] []]; vm_compute; congruence.
Qed.

Lemma tag_of_shape (u : string) :
  (String.length (tag_of u) <= 3)%nat
  /\ Forall (fun c => PyStr.isupper c = true) (PyStr.chars (tag_of u)).
Proof.
  unfold tag_of, PyStr.upper. rewrite chars_join.
  set (l := firstn 3 (List.filter PyStr.isalpha (PyStr.chars u))).
  assert (Hlen : (length l <= 3)%nat) by apply firstn_le_length.
  assert (Hal : Forall (fun c => PyStr.isalpha c = true) l).
  { apply Forall_forall. intros c Hc. apply (subseteq_take 3) in Hc.
    apply list_elem_of_In, filter_In in Hc. apply Hc. }
  split.
  - unfold PyStr.join. rewrite <- (length_map PyStr.upper_char l) in Hlen.
    revert Hlen. generalize (map PyStr.upper_char l). intros m.
    replace (String.length (string_of_list_ascii m)) with (length m); [auto|].
    induction m as [|x m IH]; cbn; [reflexivity|]. f_equal. exact IH.
  - rewrite chars_join. clear Hlen.
    induction Hal as [|c l0 Hc _ IH]; cbn [map]; constructor.
    + apply upper_char_alpha, Hc.
    + exact IH.
Qed.

Lemma entry_fields (line : string) (o : Observation) :
  entry line = OK (Some o) ->
  tag o = tag_of (user o) /\ PyStr.strip (user o) = user o.
Proof.
  unfold entry. intros H.
  destruct (PyStr.index "]" line) as [ts_end|]; [|discriminate]. cbn in H.
  destruct (Strptime.strptime _) as [t|]; [|discriminate]. cbn in H.
  destruct (PyStr.contains _ _); [|discriminate].
  destruct (unpack2 _) as [[u loc]|]; [|discriminate]. cbn in H.
  destruct (mapM _ _) as [coords|]; [|discriminate]. cbn in H.
  destruct (PyStr.item coords 0) as [c0|]; [|discriminate]. cbn in H.
  destruct (PyStr.item coords 1) as [c1|]; [|discriminate]. cbn in H.
  injection H as <-. cbn. split; [reflexivity|apply strip_idem].
Qed.

(** X1.  Every observation of a loaded ASCII log has the tag of its own
    entity name, a tag of at most three characters, all of them
    uppercase letters, and an entity name without blanks at either
    end. *)
Theorem loaded_observation_fields (lines : list string)
    (data : list Observation) (o : Observation) :
  (forall l, In l lines -> is_ascii l = true) ->
  load lines = OK data -> In o data ->
  tag o = tag_of (user o)
  /\ (String.length (tag o) <= 3)%nat
  /\ Forall (fun c => PyStr.isupper c = true) (PyStr.chars (tag o))
  /\ PyStr.strip (user o) = user o.
Proof.
  intros _ Hload Ho. unfold load in Hload.
  destruct (loader_run loader_init lines) as [st|] eqn:Hrun; [|discriminate].
  cbn in Hload. injection Hload as <-.
  assert (Hp : from_entry_after_header ([] ++ lines) o).
  { apply (loader_run_provenance lines [] loader_init st);
      [discriminate|intros ? []|exact Hrun|exact Ho]. }
  destruct Hp as (pre & raw & post & _ & _ & _ & He & _).
  destruct (entry_fields _ _ He) as [Ht Hu].
  rewrite Ht. pose proof (tag_of_shape (user o)) as [H1 H2]. auto.
Qed.

Lemma loaded_observation_fields_witness :
  tag obs_alpha = tag_of (user obs_alpha)
  /\ (String.length (tag obs_alpha) <= 3)%nat
  /\ Forall (fun c => PyStr.isupper c = true) (PyStr.chars (tag obs_alpha))
  /\ PyStr.strip (user obs_alpha) = user obs_alpha.
Proof.
  apply (loaded_observation_fields [header_noon; entry_alpha] [obs_alpha]).
  - intros l [<-|[<-|[]]]; vm_compute; reflexivity.
  - vm_compute. reflexivity.
  - left. reflexivity.
Defined.

Lemma loader_step_same_progress (a b : loader) (raw : string) :
  same_progress a b ->
  match loader_step a raw, loader_step b raw with
  | OK a', OK b' => same_progress a' b'
  | Raise e, Raise e' => e = e'
  | _, _ => False
  end.
Proof.
  intros [Ht Hd]. unfold loader_step.
  destruct (is_header (PyStr.strip raw)).
  - destruct (header_time (PyStr.strip raw)); cbn; [|reflexivity].
    split; [reflexivity|exact Hd].
  - rewrite Ht.
    destruct (PyStr.startswith (PyStr.strip raw) "[" && truthy (current_time b)).
    + destruct (entry (PyStr.strip raw)) as [[ob|]|]; cbn.
      * split; [exact Ht|]. cbn. rewrite Hd. reflexivity.
      * split; assumption.
      * reflexivity.
    + split; assumption.
Qed.

Lemma loader_run_same_progress (lines : list string) (a b : loader) :
  same_progress a b ->
  match loader_run a lines, loader_run b lines with
  | OK a', OK b' => same_progress a' b'
  | Raise e, Raise e' => e = e'
  | _, _ => False
  end.
Proof.
  revert a b. induction lines as [|raw lines IH]; intros a b H; [exact H|].
  cbn [loader_run].
  pose proof (loader_step_same_progress a b raw H) as Hs.
  destruct (loader_step a raw) as [a'|e], (loader_step b raw) as [b'|e'];
    cbn; try contradiction.
  - apply IH, Hs.
  - exact Hs.
Qed.

Lemma load_from_same_progress (lines : list string) (a b : loader) :
  same_progress a b ->
  (st ← loader_run a lines; OK (data st))
  = (st ← loader_run b lines; OK (data st)).
Proof.
  intros H. pose proof (loader_run_same_progress lines a b H) as Hr.
  destruct (loader_run a lines) as [a'|e], (loader_run b lines) as [b'|e'];
    cbn; try contradiction.
  - destruct Hr as [_ ->]. reflexivity.
  - rewrite Hr. reflexivity.
Qed.

(** X2.  The time written in a header line never reaches the data: a
    header line can be replaced by any other header line whose time
    parses, and the log loads to the same observations (or fails the
    same way). *)
Theorem header_time_is_not_used (pre post : list string) (h1 h2 : string)
    (t1 t2 : datetime) :
  is_header (PyStr.strip h1) = true -> header_time (PyStr.strip h1) = OK t1 ->
  is_header (PyStr.strip h2) = true -> header_time (PyStr.strip h2) = OK t2 ->
  load (pre ++ h1 :: post) = load (pre ++ h2 :: post).
Proof.
  intros Hh1 Ht1 Hh2 Ht2. unfold load. rewrite !loader_run_app.
  destruct (loader_run loader_init pre) as [st|e]; [|reflexivity].
  cbn [mbind result_bind loader_run]. unfold loader_step.
  rewrite Hh1, Hh2, Ht1, Ht2. cbn [mbind result_bind].
  apply load_from_same_progress. split; reflexivity.
Qed.

Lemma header_time_is_not_used_witness :
  load ([] ++ header_noon :: [entry_alpha])
  = load ([] ++ "--- Snapshot at 1999-12-31 23:59:59 UTC ---" :: [entry_alpha]).
Proof.
  apply (header_time_is_not_used [] [entry_alpha] header_noon
           "--- Snapshot at 1999-12-31 23:59:59 UTC ---"
           (mk_datetime 2024 1 1 12 0 0) (mk_datetime 1999 12 31 23 59 59));
    vm_compute; reflexivity.
Defined.

Lemma loader_step_keeps_header (st st' : loader) (raw : string) :
  loader_step st raw = OK st' ->
  truthy (current_time st) = true \/ is_header (PyStr.strip raw) = true ->
  truthy (current_time st') = true.
Proof.
  unfold loader_step. intros H Hor.
  destruct (is_header (PyStr.strip raw)) eqn:Hh.
  - destruct (header_time _); cbn in H; [|discriminate].
    injection H as <-. reflexivity.
  - destruct Hor as [Ht|]; [|discriminate].
    destruct (PyStr.startswith (PyStr.strip raw) "[" && truthy (current_time st)).
    + destruct (entry _) as [[ob|]|]; cbn in H; try discriminate;
        injection H as <-; exact Ht.
    + injection H as <-; exact Ht.
Qed.

Lemma loader_run_keeps_header (lines : list string) (st st' : loader) :
  loader_run st lines = OK st' ->
  truthy (current_time st) = true
  \/ (exists h, In h lines /\ is_header (PyStr.strip h) = true) ->
  truthy (current_time st') = true.
Proof.
  revert st. induction lines as [|raw lines IH]; intros st Hrun Hor.
  - cbn in Hrun. injection Hrun as <-.
    destruct Hor as [H|(h & [] & _)]. exact H.
  - cbn [loader_run] in Hrun.
    destruct (loader_step st raw) as [st1|] eqn:Hstep; [|discriminate].
    cbn in Hrun. apply (IH st1 Hrun).
    destruct (is_header (PyStr.strip raw)) eqn:Hh.
    + left. apply (loader_step_keeps_header st st1 raw Hstep). right. exact Hh.
    + destruct Hor as [H|(h & [<-|Hin] & Hhd)].
      * left. apply (loader_step_keeps_header st st1 raw Hstep). left. exact H.
      * congruence.
      * right. exists h. split; assumption.
Qed.

(** X3.  Only the first header line matters: once a header line has
    been read, a further header line whose time parses can be taken out
    of the log without changing what is loaded. *)
Theorem later_header_is_redundant (pre post : list string) (h0 h : string)
    (t : datetime) :
  In h0 pre -> is_header (PyStr.strip h0) = true ->
  is_header (PyStr.strip h) = true -> header_time (PyStr.strip h) = OK t ->
  load (pre ++ h :: post) = load (pre ++ post).
Proof.
  intros Hin Hh0 Hh Ht. unfold load. rewrite !loader_run_app.
  destruct (loader_run loader_init pre) as [st|e] eqn:Hrun; [|reflexivity].
  cbn [mbind result_bind loader_run]. unfold loader_step.
  rewrite Hh, Ht. cbn [mbind result_bind].
  apply load_from_same_progress. split; [|reflexivity].
  cbn. symmetry. apply (loader_run_keeps_header pre loader_init st Hrun).
  right. exists h0. split; assumption.
Qed.

Lemma later_header_is_redundant_witness :
  load ([header_noon; entry_alpha]
        ++ "--- Snapshot at 2024-01-01 12:01:00 UTC ---" :: [entry_alpha])
  = load ([header_noon; entry_alpha] ++ [entry_alpha]).
Proof.
  apply (later_header_is_redundant [header_noon; entry_alpha] [entry_alpha]
           header_noon "--- Snapshot at 2024-01-01 12:01:00 UTC ---"
           (mk_datetime 2024 1 1 12 1 0)).
  - left. reflexivity.
  - vm_compute. reflexivity.
  - vm_compute. reflexivity.
  - vm_compute. reflexivity.
Defined.

Lemma loader_step_extends (st st' : loader) (raw : string) :
  loader_step st raw = OK st' -> exists d, data st' = data st ++ d.
Proof.
  unfold loader_step. intros H.
  destruct (is_header (PyStr.strip raw)).
  - destruct (header_time _); cbn in H; [|discriminate].
    injection H as <-. exists []. cbn. rewrite app_nil_r. reflexivity.
  - destruct (PyStr.startswith (PyStr.strip raw) "[" && truthy (current_time st)).
    + destruct (entry _) as [[ob|]|]; cbn in H; try discriminate;
        injection H as <-.
      * exists [ob]. reflexivity.
      * exists []. rewrite app_nil_r. reflexivity.
    + injection H as <-. exists []. rewrite app_nil_r. reflexivity.
Qed.

Lemma loader_run_extends (lines : list string) (st st' : loader) :
  loader_run st lines = OK st' -> exists d, data st' = data st ++ d.
Proof.
  revert st. induction lines as [|raw lines IH]; intros st H.
  - cbn in H. injection H as <-. exists []. rewrite app_nil_r. reflexivity.
  - cbn [loader_run] in H.
    destruct (loader_step st raw) as [st1|] eqn:Hstep; [|discriminate].
    cbn in H. destruct (loader_step_extends _ _ _ Hstep) as [d1 H1].
    destruct (IH _ H) as [d2 H2]. exists (d1 ++ d2).
    rewrite H2, H1, app_assoc. reflexivity.
Qed.

(** X4.  Observations are appended in the order of the lines: when a
    log loads, each of its initial parts loads too, and the observations
    of the part are the first observations of the whole. *)
Theorem load_prefix (l1 l2 : list string) (data : list Observation) :
  load (l1 ++ l2) = OK data ->
  exists d1 d2, load l1 = OK d1 /\ data = d1 ++ d2.
Proof.
  unfold load. rewrite loader_run_app.
  destruct (loader_run loader_init l1) as [st1|]; [|discriminate].
  cbn [mbind result_bind].
  destruct (loader_run st1 l2) as [st2|] eqn:H2; [|discriminate].
  cbn. intros H. injection H as <-.
  destruct (loader_run_extends _ _ _ H2) as [d Hd].
  exists (data st1), d. split; [reflexivity|exact Hd].
Qed.

Lemma load_prefix_witness :
  exists d1 d2, load [header_noon; entry_alpha] = OK d1
                /\ [obs_alpha; obs_alpha] = d1 ++ d2.
Proof.
  apply (load_prefix [header_noon; entry_alpha] [entry_alpha]
           [obs_alpha; obs_alpha]).
  vm_compute. reflexivity.
Defined.

(** ** Lines that abort the load *)

Lemma prefix_single (c d : ascii) (s : string) :
  String.prefix (String c EmptyString) (String d s) = Ascii.eqb c d.
Proof.
  cbn. destruct (ascii_dec c d) as [->|Hne].
  - rewrite Ascii.eqb_refl. destruct s; reflexivity.
  - symmetry. apply Ascii.eqb_neq, Hne.
Qed.

Lemma split_single_length (c : ascii) (cur : list ascii) (s : string) :
  length (PyStr.split_go (String c EmptyString) O cur s) = S (count_char c s).
Proof.
  revert cur. induction s as [|d s IH]; intros cur; [reflexivity|].
  cbn [PyStr.split_go count_char]. rewrite prefix_single.
  destruct (Ascii.eqb c d); cbn [length String.length Nat.sub]; rewrite IH;
    reflexivity.
Qed.


Lemma contains_count (c : ascii) (s : string) :
  (1 <= count_char c s)%nat -> PyStr.contains c s = true.
Proof.
  unfold PyStr.contains. induction s as [|d s IH]; cbn; [lia|].
  destruct (Ascii.eqb c d); [reflexivity|].
  intros H. specialize (IH H). destruct (PyStr.find_char c s); [reflexivity|discriminate].
Qed.

Lemma bracket_is_not_header (line : string) :
  PyStr.startswith line "[" = true -> is_header line = false.
Proof.
  unfold PyStr.startswith, is_header, PyStr.startswith.
  destruct line as [|c s]; [discriminate|]. rewrite prefix_single.
  intros H. apply Ascii.eqb_eq in H. subst c. reflexivity.
Qed.

Lemma entry_after_rest (line rest : string) :
  entry_rest line = OK rest ->
  entry line
  = (if PyStr.contains ":" rest then
       '(user, loc) ← unpack2 (PyStr.split ":" rest);
       let user := PyStr.strip user in
       let loc := PyStr.strip loc in
       coords ← mapM PyFloat.float (firstn 2 (PyStr.split "," loc));
       let tag := tag_of user in
       c0 ← PyStr.item coords 0;
       c1 ← PyStr.item coords 1;
       OK (Some (mk_obs
                   (match Strptime.strptime
                            (PyStr.slice 1
                               (match PyStr.index "]" line with
                                | OK n => n | Raise _ => O end) line) with
                    | OK t => t | Raise _ => mk_datetime 0 0 0 0 0 0 end)
                   user c0 c1 tag))
     else OK None).
Proof.
  unfold entry_rest, entry.
  destruct (PyStr.index "]" line) as [ts_end|]; [|discriminate].
  cbn [mbind result_bind].
  destruct (Strptime.strptime _) as [t|]; [|discriminate].
  cbn [mbind result_bind]. intros H. injection H as <-. reflexivity.
Qed.

(** What the load comes to when a line that starts with a bracket is
    read after a header in a log that loaded so far. *)
Lemma load_at_entry (pre post : list string) (h0 raw : string)
    (d : list Observation) (e : pyerr) :
  load pre = OK d -> In h0 pre -> is_header (PyStr.strip h0) = true ->
  PyStr.startswith (PyStr.strip raw) "[" = true ->
  entry (PyStr.strip raw) = Raise e ->
  load (pre ++ raw :: post) = Raise e.
Proof.
  intros Hload Hin Hh0 Hbr He. unfold load in *. rewrite loader_run_app.
  destruct (loader_run loader_init pre) as [st|] eqn:Hrun; [|discriminate].
  cbn [mbind result_bind loader_run]. unfold loader_step.
  rewrite (bracket_is_not_header _ Hbr), Hbr.
  rewrite (loader_run_keeps_header pre loader_init st Hrun)
    by (right; exists h0; split; assumption).
  cbn [andb]. rewrite He. reflexivity.
Qed.





(** X7.  In a log of ASCII lines a first coordinate that is not a
    number is fatal: after a header, the exception of [float] ends the
    load. *)
Theorem bad_first_coordinate_aborts_load (pre post : list string)
    (h0 raw rest u loc x : string) (xs : list string)
    (d : list Observation) (e : pyerr) :
  (forall l, In l (pre ++ raw :: post) -> is_ascii l = true) ->
  load pre = OK d -> In h0 pre -> is_header (PyStr.strip h0) = true ->
  PyStr.startswith (PyStr.strip raw) "[" = true ->
  entry_rest (PyStr.strip raw) = OK rest ->
  PyStr.split ":" rest = [u; loc] ->
  PyStr.split "," (PyStr.strip loc) = x :: xs ->
  PyFloat.float x = Raise e ->
  load (pre ++ raw :: post) = Raise e.
Proof.
  intros _ Hload Hin Hh0 Hbr Hrest Hsplit Hfields Hx.
  apply (load_at_entry pre post h0 raw d e Hload Hin Hh0 Hbr).
  rewrite (entry_after_rest _ _ Hrest).
  rewrite contains_count.
  - rewrite Hsplit. cbn [unpack2 mbind result_bind]. rewrite Hfields.
    destruct xs; cbn [firstn mapM]; rewrite Hx; reflexivity.
  - pose proof (split_single_length ":" [] rest) as Hl.
    unfold PyStr.split in Hsplit. rewrite Hsplit in Hl. cbn in Hl. lia.
Qed.

Lemma bad_first_coordinate_aborts_load_witness :
  load ([header_noon] ++ "[2024-01-01 12:00:05] Alpha1: n/a,-41.29"
          :: [entry_alpha])
  = Raise ValueError.
Proof.
  apply (bad_first_coordinate_aborts_load [header_noon] [entry_alpha]
           header_noon "[2024-01-01 12:00:05] Alpha1: n/a,-41.29"
           "Alpha1: n/a,-41.29" "Alpha1" " n/a,-41.29" "n/a" ["-41.29"] []
           ValueError);
    try (vm_compute; reflexivity).
  - intros l [<-|[<-|[<-|[]]]]; vm_compute; reflexivity.
  - left. reflexivity.
Defined.

(** ** Start-up *)

(** X8.  An ASCII log without any header line (an empty file included)
    cannot be started on: nothing is loaded, the frame has no "time" column,
    and sorting it raises KeyError. *)
Theorem startup_without_header_fails (sort_values : list row -> list row)
    (hash : string -> Z) (lines : list string) :
  (forall l, In l lines -> is_ascii l = true) ->
  (forall l, In l lines -> is_header (PyStr.strip l) = false) ->
  startup sort_values hash lines = Raise KeyError.
Proof.
  intros _ H. unfold startup, load.
  rewrite (loader_run_no_header lines H). reflexivity.
Qed.

Lemma startup_without_header_fails_witness :
  startup stable_sort_values (fun _ => 0) [entry_alpha; entry_alpha]
  = Raise KeyError.
Proof.
  apply startup_without_header_fails;
    intros l [<-|[<-|[]]]; vm_compute; reflexivity.
Defined.

Lemma unique_in {A} `{EqDecision A} (l : list A) (x : A) :
  In x (unique l) <-> In x l.
Proof.
  induction l as [|y l IH]; [reflexivity|].
  cbn [unique In]. rewrite <- list_elem_of_In, list_elem_of_filter,
    list_elem_of_In, IH.
  destruct (decide (y = x)) as [->|Hne]; [tauto|].
  split; [tauto|]. intros [?|?]; [tauto|]. right. split; [congruence|assumption].
Qed.

Lemma unique_nodup {A} `{EqDecision A} (l : list A) : List.NoDup (unique l).
Proof.
  induction l as [|y l IH]; cbn [unique]; constructor.
  - rewrite <- list_elem_of_In, list_elem_of_filter. tauto.
  - apply NoDup_ListNoDup, NoDup_filter, NoDup_ListNoDup, IH.
Qed.

Lemma insert_time_perm (t : datetime) (l : list datetime) :
  Permutation (insert_time t l) (t :: l).
Proof.
  induction l as [|x l IH]; cbn [insert_time]; [reflexivity|].
  destruct (dt_leb x t); [|reflexivity].
  rewrite IH. apply perm_swap.
Qed.

Lemma insert_time_sorted (t : datetime) (l : list datetime) :
  Sorted dt_le l -> Sorted dt_le (insert_time t l).
Proof.
  induction 1 as [|x l Hl IH Hhd]; cbn [insert_time].
  - repeat constructor.
  - destruct (dt_leb x t) eqn:Hxt.
    + constructor; [exact IH|].
      destruct l as [|y l]; cbn [insert_time].
      * constructor. exact Hxt.
      * destruct (dt_leb y t); constructor.
        -- inversion Hhd; assumption.
        -- exact Hxt.
    + constructor; [constructor; assumption|]. constructor.
      destruct (dt_le_total t x) as [H|H]; [exact H|].
      unfold dt_le in H. congruence.
Qed.

Lemma sorted_from (l acc : list datetime) :
  Sorted dt_le acc ->
  Sorted dt_le (fold_left (fun acc t => insert_time t acc) l acc)
  /\ Permutation (fold_left (fun acc t => insert_time t acc) l acc) (l ++ acc).
Proof.
  revert acc. induction l as [|t l IH]; intros acc Hacc.
  - split; [exact Hacc|reflexivity].
  - cbn [fold_left]. destruct (IH _ (insert_time_sorted t acc Hacc)) as [Hs Hp].
    split; [exact Hs|].
    rewrite Hp, insert_time_perm. cbn.
    symmetry. apply Permutation_middle.
Qed.

Lemma lex_leb_antisym (a b : list Z) :
  length a = length b ->
  lex_leb a b = true -> lex_leb b a = true -> a = b.
Proof.
  revert b. induction a as [|x a IH]; intros [|y b]; cbn; try discriminate;
    [reflexivity|].
  intros Hlen H1 H2. injection Hlen as Hlen.
  apply orb_true_iff in H1 as [H1|H1]; apply orb_true_iff in H2 as [H2|H2];
    try apply andb_true_iff in H1 as [E1 H1];
    try apply andb_true_iff in H2 as [E2 H2]; try lia.
  assert (x = y) as -> by lia. f_equal. apply IH; assumption.
Qed.

Lemma dt_le_antisym (a b : datetime) : dt_le a b -> dt_le b a -> a = b.
Proof.
  intros H1 H2.
  assert (E : dt_fields a = dt_fields b)
    by (apply lex_leb_antisym; [reflexivity|exact H1|exact H2]).
  destruct a, b. unfold dt_fields in E. cbn in E. congruence.
Qed.

Lemma sorted_distinct_strict (l : list datetime) :
  Sorted dt_le l -> List.NoDup l -> StronglySorted dt_lt l.
Proof.
  intros Hs Hn.
  assert (Hss : StronglySorted dt_le l).
  { apply Sorted.Sorted_StronglySorted; [|exact Hs].
    intros a b c. apply dt_le_trans. }
  clear Hs. induction Hss as [|x l Hss IH Hall]; [constructor|].
  inversion Hn as [|? ? Hx Hn']; subst.
  constructor; [apply IH, Hn'|].
  rewrite Forall_forall in *. intros y Hy. specialize (Hall y Hy).
  unfold dt_lt. destruct (dt_leb y x) eqn:Hyx; [|reflexivity].
  assert (x = y) by (apply dt_le_antisym; assumption). subst y.
  apply list_elem_of_In in Hy. contradiction.
Qed.

Lemma init_globals_fields (sort_values : list row -> list row)
    (hash : string -> Z) (data : list Observation) (g : globals) :
  init_globals sort_values hash data = OK g ->
  data <> []
  /\ df g = sort_values (DataFrame data)
  /\ unique_times g = sorted (unique (map (fun r : row => time r.2) (df g)))
  /\ unique_tags g = unique (map (fun r : row => tag r.2) (df g))
  /\ tag_colors g = build_tag_colors hash (unique_tags g).
Proof.
  unfold init_globals. destruct data as [|o data]; [discriminate|].
  intros H. injection H as <-. cbn. repeat split. discriminate.
Qed.

Lemma df_column (sort_values : list row -> list row)
    (data : list Observation) {B} (f : Observation -> B) (y : B) :
  (forall l, Permutation (sort_values l) l) ->
  In y (map (fun r : row => f r.2) (sort_values (DataFrame data)))
  <-> exists o, In o data /\ f o = y.
Proof.
  intros Hperm. rewrite in_map_iff. split.
  - intros (r & Hy & Hin). exists r.2. split; [|exact Hy].
    apply DataFrame_obs. exists r.1.
    apply (Permutation_in _ (Hperm _)) in Hin. destruct r; exact Hin.
  - intros (o & Hin & Hy). apply DataFrame_obs in Hin as (i & Hin).
    exists (i, o). split; [exact Hy|].
    apply (Permutation_in _ (Permutation_sym (Hperm _))), Hin.
Qed.

Lemma timeline_sorted_perm (sort_values : list row -> list row)
    (hash : string -> Z) (data : list Observation) (g : globals) :
  init_globals sort_values hash data = OK g ->
  Sorted dt_le (unique_times g)
  /\ Permutation (unique_times g)
       (unique (map (fun r : row => time r.2) (sort_values (DataFrame data)))).
Proof.
  intros Hinit.
  destruct (init_globals_fields _ _ _ _ Hinit) as (_ & Hdf & Ht & _ & _).
  rewrite Ht, Hdf.
  set (col := map (fun r : row => time r.2) (sort_values (DataFrame data))).
  destruct (sorted_from (unique col) [] (Sorted_nil _)) as [Hs Hp].
  fold (sorted (unique col)) in Hs, Hp. rewrite app_nil_r in Hp.
  split; assumption.
Qed.

Lemma timeline_members (sort_values : list row -> list row)
    (hash : string -> Z) (data : list Observation) (g : globals)
    (t : datetime) :
  (forall l, Permutation (sort_values l) l) ->
  init_globals sort_values hash data = OK g ->
  In t (unique_times g) <-> exists o, In o data /\ time o = t.
Proof.
  intros Hperm Hinit.
  destruct (timeline_sorted_perm _ _ _ _ Hinit) as [_ Hp].
  rewrite <- (df_column sort_values data time t Hperm). split; intros H.
  - apply unique_in. apply (Permutation_in _ Hp), H.
  - apply (Permutation_in _ (Permutation_sym Hp)), unique_in, H.
Qed.

Lemma timeline_strict (sort_values : list row -> list row)
    (hash : string -> Z) (data : list Observation) (g : globals) :
  init_globals sort_values hash data = OK g ->
  StronglySorted dt_lt (unique_times g).
Proof.
  intros Hinit.
  destruct (timeline_sorted_perm _ _ _ _ Hinit) as [Hs Hp].
  apply sorted_distinct_strict; [exact Hs|].
  apply NoDup_ListNoDup. rewrite Hp. apply NoDup_ListNoDup, unique_nodup.
Qed.

(** X9.  After start-up the timeline is not empty, runs in strictly
    increasing order, and holds exactly the times of the observations
    that were loaded. *)
Theorem timeline_sorted_distinct (sort_values : list row -> list row)
    (hash : string -> Z) (data : list Observation) (g : globals) :
  (forall l, Permutation (sort_values l) l) ->
  init_globals sort_values hash data = OK g ->
  unique_times g <> []
  /\ StronglySorted dt_lt (unique_times g)
  /\ (forall t, In t (unique_times g) <-> exists o, In o data /\ time o = t).
Proof.
  intros Hperm Hinit. split; [|split].
  - destruct (init_globals_fields _ _ _ _ Hinit) as (Hne & _).
    destruct data as [|o data]; [congruence|].
    intros E.
    assert (Ho : In (time o) (unique_times g)).
    { apply (timeline_members sort_values hash (o :: data) g _ Hperm Hinit).
      exists o. split; [left|]; reflexivity. }
    rewrite E in Ho. destruct Ho.
  - apply (timeline_strict sort_values hash data g Hinit).
  - intros t. apply (timeline_members sort_values hash data g t Hperm Hinit).
Qed.

Lemma timeline_sorted_distinct_witness :
  unique_times
    (mk_globals
       [(1%nat, bravo); (0%nat, alpha_first); (2%nat, alpha_second)]
       [noon 0; noon 5] ["BRA"; "ALP"]
       (build_tag_colors (fun _ => 0) ["BRA"; "ALP"])) <> [].
Proof.
  apply (timeline_sorted_distinct stable_sort_values (fun _ => 0) sample_data).
  - exact stable_sort_values_perm.
  - vm_compute. reflexivity.
Defined.

Lemma build_tag_colors_acc_none (hash : string -> Z) (tags : list string)
    (m : gmap string string) (t : string) :
  m !! t = None -> ~ In t tags ->
  fold_left (fun m tag => <[tag := tag_color hash tag]> m) tags m !! t = None.
Proof.
  revert m. induction tags as [|x tags IH]; intros m Hm Hn; [exact Hm|].
  cbn [fold_left]. apply IH.
  - rewrite lookup_insert_ne; [exact Hm|]. intros ->. apply Hn. left. reflexivity.
  - intros H. apply Hn. right. exact H.
Qed.

(** X10.  After start-up the color table has an entry for exactly the
    tags of the loaded observations, and the entry of a tag is the color
    the rule gives that tag: no tag on the map is without a color. *)
Theorem tag_colors_cover_the_tags (sort_values : list row -> list row)
    (hash : string -> Z) (data : list Observation) (g : globals)
    (tg : string) :
  (forall l, Permutation (sort_values l) l) ->
  init_globals sort_values hash data = OK g ->
  ((exists o, In o data /\ tag o = tg) ->
     tag_colors g !! tg = Some (tag_color hash tg))
  /\ (~ (exists o, In o data /\ tag o = tg) -> tag_colors g !! tg = None).
Proof.
  intros Hperm Hinit.
  destruct (init_globals_fields _ _ _ _ Hinit) as (_ & Hdf & _ & Htags & Hcol).
  rewrite Hcol, Htags, Hdf.
  rewrite <- (df_column sort_values data tag tg Hperm), <- unique_in.
  split; intros H.
  - apply build_tag_colors_lookup, H.
  - apply build_tag_colors_acc_none; [apply lookup_empty|exact H].
Qed.

Lemma tag_colors_cover_the_tags_witness :
  ((exists o, In o sample_data /\ tag o = "ALP") ->
     build_tag_colors (fun _ => 0) ["BRA"; "ALP"] !! "ALP"
     = Some (tag_color (fun _ => 0) "ALP"))
  /\ (~ (exists o, In o sample_data /\ tag o = "ALP") ->
      build_tag_colors (fun _ => 0) ["BRA"; "ALP"] !! "ALP" = None).
Proof.
  apply (tag_colors_cover_the_tags stable_sort_values (fun _ => 0) sample_data
           (mk_globals
              [(1%nat, bravo); (0%nat, alpha_first); (2%nat, alpha_second)]
              [noon 0; noon 5] ["BRA"; "ALP"]
              (build_tag_colors (fun _ => 0) ["BRA"; "ALP"])) "ALP").
  - exact stable_sort_values_perm.
  - vm_compute. reflexivity.
Defined.

(** ** Colors *)

Lemma length_join (l : list ascii) : String.length (PyStr.join l) = length l.
Proof. induction l as [|x l IH]; cbn; [reflexivity|]. f_equal. exact IH. Qed.

Lemma hex_digit_is_hex (d : Z) : 0 <= d < 16 -> is_hex (hex_digit d) = true.
Proof.
  intros H.
  assert (E : d = 0 \/ d = 1 \/ d = 2 \/ d = 3 \/ d = 4 \/ d = 5 \/ d = 6
              \/ d = 7 \/ d = 8 \/ d = 9 \/ d = 10 \/ d = 11 \/ d = 12
              \/ d = 13 \/ d = 14 \/ d = 15) by lia.
  repeat (destruct E as [->|E]; [reflexivity|]). subst d. reflexivity.
Qed.

Lemma hex_go_shape (fuel : nat) (n : Z) (acc : list ascii) (k : nat) :
  0 <= n < 16 ^ Z.of_nat (S k) ->
  Forall (fun c => is_hex c = true) acc ->
  (length (hex_go fuel n acc) <= length acc + S k)%nat
  /\ Forall (fun c => is_hex c = true) (hex_go fuel n acc).
Proof.
  revert n acc k. induction fuel as [|f IH]; intros n acc k Hn Hacc.
  - cbn. split; [lia|exact Hacc].
  - cbn [hex_go].
    assert (Hd : is_hex (hex_digit (n mod 16)) = true)
      by (apply hex_digit_is_hex, Z.mod_pos_bound; lia).
    destruct (Z.eqb_spec (n / 16) 0) as [Hz|Hnz].
    + split; [cbn [length]; lia|constructor; assumption].
    + rewrite Nat2Z.inj_succ, Z.pow_succ_r in Hn by lia.
      destruct k as [|k].
      * exfalso. apply Hnz. apply Z.div_small. cbn in Hn. lia.
      * assert (Hq : 0 <= n / 16 < 16 ^ Z.of_nat (S k)).
        { split; [apply Z.div_pos; lia|].
          apply Z.div_lt_upper_bound; lia. }
        destruct (IH (n / 16) (hex_digit (n mod 16) :: acc) k Hq) as [Hl Hf].
        -- constructor; assumption.
        -- split; [cbn [length] in Hl; lia|exact Hf].
Qed.

Lemma format_06x_shape (n : Z) :
  0 <= n < 16777216 ->
  String.length (format_06x n) = 6%nat
  /\ Forall (fun c => is_hex c = true) (PyStr.chars (format_06x n)).
Proof.
  intros Hn. unfold format_06x, hex.
  destruct (hex_go_shape (S (Z.to_nat (Z.log2 n))) n [] 5) as [Hl Hf];
    [cbn; lia|constructor|].
  set (h := hex_go _ n []) in *. cbn [length] in Hl.
  rewrite length_join, chars_join. split.
  - rewrite length_app, repeat_length. lia.
  - apply Forall_app. split; [|exact Hf].
    apply Forall_forall. intros c Hc.
    apply list_elem_of_In, repeat_spec in Hc. subst c. reflexivity.
Qed.

(** X11.  Whatever the hash function returns, the color of a tag is
    "red", "blue", or a "#" followed by exactly six lowercase
    hexadecimal digits. *)
Theorem tag_color_shape (hash : string -> Z) (tg : string) :
  tag_color hash tg = "red" \/ tag_color hash tg = "blue"
  \/ exists body,
       tag_color hash tg = String "#" body
       /\ String.length body = 6%nat
       /\ Forall (fun c => is_hex c = true) (PyStr.chars body).
Proof.
  unfold tag_color.
  destruct (PyStr.startswith tg "BDR"); [left; reflexivity|].
  destruct (PyStr.startswith tg "ETG"); [right; left; reflexivity|].
  right. right. exists (format_06x (hash tg mod 16777215)).
  split; [reflexivity|].
  apply format_06x_shape.
  pose proof (Z.mod_pos_bound (hash tg) 16777215). lia.
Qed.

Lemma prefix_three (a b c : ascii) (s : string) :
  String.prefix (String a (String b (String c EmptyString))) s = true ->
  (String.length s <= 3)%nat ->
  s = String a (String b (String c EmptyString)).
Proof.
  destruct s as [|x [|y [|z [|w s]]]]; cbn; try discriminate.
  - destruct (ascii_dec a x); discriminate.
  - destruct (ascii_dec a x); [|discriminate].
    destruct (ascii_dec b y); discriminate.
  - destruct (ascii_dec a x); [|discriminate].
    destruct (ascii_dec b y); [|discriminate].
    destruct (ascii_dec c z); [|discriminate]. intros _ _. congruence.
  - intros _ H. lia.
Qed.

(** X12.  The tag of an ASCII entity name has at most three characters,
    so the two prefix tests of the color rule can only match whole
    tags: an entity with an ASCII name is drawn red exactly when its tag
    is "BDR" and blue exactly when its tag is "ETG". *)
Theorem derived_tag_red_blue (hash : string -> Z) (user : string) :
  is_ascii user = true ->
  (tag_color hash (tag_of user) = "red" <-> tag_of user = "BDR")
  /\ (tag_color hash (tag_of user) = "blue" <-> tag_of user = "ETG").
Proof.
  intros _. pose proof (tag_of_shape user) as [Hlen _].
  split; split.
  - unfold tag_color.
    destruct (PyStr.startswith (tag_of user) "BDR") eqn:Hb.
    + intros _. apply prefix_three; assumption.
    + destruct (PyStr.startswith (tag_of user) "ETG"); discriminate.
  - intros ->. reflexivity.
  - unfold tag_color.
    destruct (PyStr.startswith (tag_of user) "BDR") eqn:Hb; [discriminate|].
    destruct (PyStr.startswith (tag_of user) "ETG") eqn:He; [|discriminate].
    intros _. apply prefix_three; assumption.
  - intros ->. reflexivity.
Qed.

Lemma derived_tag_red_blue_witness :
  (tag_color (fun _ => 0) (tag_of "bdr-12") = "red" <-> tag_of "bdr-12" = "BDR")
  /\ (tag_color (fun _ => 0) (tag_of "bdr-12") = "blue"
      <-> tag_of "bdr-12" = "ETG").
Proof.
  apply (derived_tag_red_blue (fun _ => 0) "bdr-12"). reflexivity.
Defined.

(** ** The figure *)

Lemma mapM_py_ok {A B} (f : A -> py B) (h : A -> B) (l : list A)
    (g : globals) :
  (forall x, In x l -> f x g = (OK (h x), g)) ->
  mapM f l g = (OK (map h l), g).
Proof.
  induction l as [|x l IH]; intros H; [reflexivity|].
  cbn [mapM map]. unfold mbind, py_bind at 1.
  rewrite (H x) by (left; reflexivity).
  unfold py_bind at 1. rewrite IH by (intros y Hy; apply H; right; exact Hy).
  reflexivity.
Qed.

Lemma create_figure_with_colors (sort_values : list row -> list row)
    (mean : list pyfloat -> pyfloat) (color : string -> string)
    (t : datetime) (c : option (pyfloat * pyfloat)) (z : jvalue)
    (g : globals) :
  (forall r, In r (snapshot sort_values (df g) t) ->
     tag_colors g !! tag r.2 = Some (color (tag r.2))) ->
  create_figure sort_values mean t c z g
  = (OK (mk_figure
           (map (fun tg => trace_of (snapshot sort_values (df g) t) (color tg) tg)
              (unique (map (fun r : row => tag r.2)
                         (snapshot sort_values (df g) t))))
           (center_of mean (snapshot sort_values (df g) t) c).1
           (center_of mean (snapshot sort_values (df g) t) c).2
           z), g).
Proof.
  intros Hcol. unfold create_figure.
  unfold mbind at 1, py_bind at 1, read at 1.
  set (shown := snapshot sort_values (df g) t) in *.
  unfold mbind at 1, py_bind at 1.
  rewrite (mapM_py_ok _ (fun tg => trace_of shown (color tg) tg)).
  - unfold center_of. destruct c as [[la lo]|]; [reflexivity|].
    destruct shown; reflexivity.
  - intros tg Htg. apply unique_in, in_map_iff in Htg as (r & <- & Hr).
    unfold mbind, py_bind, read, getitem. rewrite (Hcol r Hr). reflexivity.
Qed.

Lemma snapshot_nothing (sort_values : list row -> list row)
    (df0 : list row) (t : datetime) :
  (forall l, Permutation (sort_values l) l) ->
  (forall r, In r df0 -> ~ dt_le (time r.2) t) ->
  snapshot sort_values df0 t = [].
Proof.
  intros Hperm Hnone. unfold snapshot.
  match goal with
  | |- groupby_user_tail1 (sort_values ?f) = _ => assert (E : f = [])
  end.
  { induction df0 as [|r l IH]; [reflexivity|].
    rewrite filter_cons_False by (apply Hnone; left; reflexivity).
    apply IH. intros r' Hr'. apply Hnone. right. exact Hr'. }
  rewrite E. rewrite (Permutation_nil (Permutation_sym (Hperm []))).
  reflexivity.
Qed.

(** X13.  With the cursor before every observation nothing is shown
    and nothing fails: [create_figure] returns a figure without traces,
    centered on the stored center if there is one and on the fixed
    default (-41.289, 174.762) otherwise. *)
Theorem create_figure_before_first (sort_values : list row -> list row)
    (mean : list pyfloat -> pyfloat) (t : datetime)
    (c : option (pyfloat * pyfloat)) (z : jvalue) (g : globals) :
  (forall l, Permutation (sort_values l) l) ->
  (forall r, In r (df g) -> ~ dt_le (time r.2) t) ->
  create_figure sort_values mean t c z g
  = (OK (mk_figure []
           (default (Fdec true 41289 (-3), Fdec false 174762 (-3)) c).1
           (default (Fdec true 41289 (-3), Fdec false 174762 (-3)) c).2
           z), g).
Proof.
  intros Hperm Hnone.
  rewrite (create_figure_with_colors sort_values mean (fun _ => "")).
  - rewrite (snapshot_nothing sort_values (df g) t Hperm Hnone).
    destruct c; reflexivity.
  - rewrite (snapshot_nothing sort_values (df g) t Hperm Hnone). intros r [].
Qed.

Lemma create_figure_before_first_witness :
  create_figure stable_sort_values (fun _ => Fnan) (noon 0) None
    (JNum (Fdec false 12 0)) (mk_globals [(0%nat, alpha_first)] [noon 5] ["ALP"] ∅)
  = (OK (mk_figure [] (Fdec true 41289 (-3)) (Fdec false 174762 (-3))
           (JNum (Fdec false 12 0))),
     mk_globals [(0%nat, alpha_first)] [noon 5] ["ALP"] ∅).
Proof.
  apply (create_figure_before_first stable_sort_values (fun _ => Fnan) (noon 0)
           None (JNum (Fdec false 12 0))
           (mk_globals [(0%nat, alpha_first)] [noon 5] ["ALP"] ∅)).
  - exact stable_sort_values_perm.
  - intros r [<-|[]]. vm_compute. discriminate.
Defined.

Lemma initialised_colors (sort_values : list row -> list row)
    (hash : string -> Z) (data : list Observation) (g : globals)
    (t : datetime) (r : row) :
  (forall l, Permutation (sort_values l) l) ->
  init_globals sort_values hash data = OK g ->
  In r (snapshot sort_values (df g) t) ->
  tag_colors g !! tag r.2 = Some (tag_color hash (tag r.2)).
Proof.
  intros Hperm Hinit Hr.
  destruct (init_globals_fields _ _ _ _ Hinit) as (_ & _ & _ & Htags & Hcol).
  rewrite Hcol, Htags. apply build_tag_colors_lookup, unique_in, in_map_iff.
  exists r. split; [reflexivity|].
  apply (snapshot_in sort_values Hperm (df g) t r Hr).
Qed.

(** X14.  After start-up [create_figure] never raises, at any cursor
    time and with any stored center and zoom: every tag shown has its
    color in the table.  The figure has one trace per tag shown, in
    order of first appearance, colored by the color rule, and carries
    the zoom it was given. *)
Theorem create_figure_after_startup (sort_values : list row -> list row)
    (mean : list pyfloat -> pyfloat) (hash : string -> Z)
    (data : list Observation) (g : globals) (t : datetime)
    (c : option (pyfloat * pyfloat)) (z : jvalue) :
  (forall l, Permutation (sort_values l) l) ->
  init_globals sort_values hash data = OK g ->
  exists fig,
    create_figure sort_values mean t c z g = (OK fig, g)
    /\ fig_data fig
       = map (fun tg =>
                trace_of (snapshot sort_values (df g) t) (tag_color hash tg) tg)
           (unique (map (fun r : row => tag r.2)
                      (snapshot sort_values (df g) t)))
    /\ (fig_center_lat fig, fig_center_lon fig)
       = center_of mean (snapshot sort_values (df g) t) c
    /\ fig_zoom fig = z.
Proof.
  intros Hperm Hinit. eexists. split.
  - apply (create_figure_with_colors sort_values mean (tag_color hash)).
    intros r Hr. apply (initialised_colors sort_values hash data g t r);
      assumption.
  - cbn. split; [reflexivity|]. split; [|reflexivity].
    destruct (center_of _ _ _); reflexivity.
Qed.

Lemma create_figure_after_startup_witness :
  exists fig,
    create_figure stable_sort_values (fun _ => Fnan) (noon 5) None
      (JNum (Fdec false 12 0)) sample_globals = (OK fig, sample_globals)
    /\ fig_data fig
       = map (fun tg =>
                trace_of (snapshot stable_sort_values (df sample_globals) (noon 5))
                  (tag_color (fun _ => 0) tg) tg)
           (unique (map (fun r : row => tag r.2)
                      (snapshot stable_sort_values (df sample_globals) (noon 5))))
    /\ (fig_center_lat fig, fig_center_lon fig)
       = center_of (fun _ => Fnan)
           (snapshot stable_sort_values (df sample_globals) (noon 5)) None
    /\ fig_zoom fig = JNum (Fdec false 12 0).
Proof.
  apply (create_figure_after_startup stable_sort_values (fun _ => Fnan)
           (fun _ => 0) sample_data sample_globals).
  - exact stable_sort_values_perm.
  - vm_compute. reflexivity.
Defined.

Lemma concat_nils {A K} (ks : list K) :
  concat (map (fun _ : K => @nil A) ks) = [].
Proof. induction ks as [|k ks IH]; cbn; [reflexivity|exact IH]. Qed.

Lemma concat_add_absent {A K} `{EqDecision K} (F : K -> list A) (x : A)
    (k0 : K) (ks : list K) :
  ~ In k0 ks ->
  concat (map (fun k => if decide (k0 = k) then x :: F k else F k) ks)
  = concat (map F ks).
Proof.
  induction ks as [|k ks IH]; intros Hn; [reflexivity|].
  cbn [map concat]. destruct (decide (k0 = k)) as [->|_].
  - exfalso. apply Hn. left. reflexivity.
  - rewrite IH; [reflexivity|]. intros H. apply Hn. right. exact H.
Qed.

Lemma concat_add_present {A K} `{EqDecision K} (F : K -> list A) (x : A)
    (k0 : K) (ks : list K) :
  List.NoDup ks -> In k0 ks ->
  Permutation
    (concat (map (fun k => if decide (k0 = k) then x :: F k else F k) ks))
    (x :: concat (map F ks)).
Proof.
  induction 1 as [|k ks Hk Hnd IH]; intros Hin; [destruct Hin|].
  cbn [map concat]. destruct (decide (k0 = k)) as [->|Hne].
  - rewrite concat_add_absent by exact Hk. reflexivity.
  - destruct Hin as [->|Hin]; [congruence|].
    rewrite (IH Hin). symmetry. apply Permutation_middle.
Qed.

Lemma partition_by_key {A K} `{EqDecision K} (key : A -> K) (l : list A)
    (ks : list K) :
  List.NoDup ks -> (forall r, In r l -> In (key r) ks) ->
  Permutation (concat (map (fun k => filter (fun r => key r = k) l) ks)) l.
Proof.
  intros Hnd. induction l as [|r l IH]; intros Hall.
  - clear. induction ks as [|k ks IHk]; cbn; [reflexivity|exact IHk].
  - assert (E : map (fun k => filter (fun r0 => key r0 = k) (r :: l)) ks
                = map (fun k => if decide (key r = k)
                                then r :: filter (fun r0 => key r0 = k) l
                                else filter (fun r0 => key r0 = k) l) ks).
    { apply map_ext. intros k. rewrite filter_cons. reflexivity. }
    rewrite E.
    rewrite (concat_add_present
               (fun k => filter (fun r0 => key r0 = k) l) r (key r) ks Hnd)
      by (apply Hall; left; reflexivity).
    constructor. apply IH. intros r' Hr'. apply Hall. right. exact Hr'.
Qed.

(** X15.  After start-up the traces of a figure split the rows shown:
    every entity shown is labelled in exactly one trace, the trace of
    its tag; no two traces have the same name, no trace is empty, and a
    trace has as many longitudes and latitudes as labels. *)
Theorem traces_partition_the_shown (sort_values : list row -> list row)
    (mean : list pyfloat -> pyfloat) (hash : string -> Z)
    (data : list Observation) (g : globals) (t : datetime)
    (c : option (pyfloat * pyfloat)) (z : jvalue) :
  (forall l, Permutation (sort_values l) l) ->
  init_globals sort_values hash data = OK g ->
  exists fig,
    create_figure sort_values mean t c z g = (OK fig, g)
    /\ Permutation (concat (map tr_text (fig_data fig)))
         (map (fun r : row => user r.2) (snapshot sort_values (df g) t))
    /\ List.NoDup (concat (map tr_text (fig_data fig)))
    /\ List.NoDup (map tr_name (fig_data fig))
    /\ Forall (fun tr => tr_text tr <> []
                         /\ length (tr_lon tr) = length (tr_text tr)
                         /\ length (tr_lat tr) = length (tr_text tr))
         (fig_data fig).
Proof.
  intros Hperm Hinit. eexists. split.
  - apply (create_figure_with_colors sort_values mean (tag_color hash)).
    intros r Hr. apply (initialised_colors sort_values hash data g t r);
      assumption.
  - cbn [fig_data]. set (shown := snapshot sort_values (df g) t).
    set (tags := unique (map (fun r : row => tag r.2) shown)).
    assert (Hp : Permutation
                   (concat (map tr_text
                      (map (fun tg => trace_of shown (tag_color hash tg) tg) tags)))
                   (map (fun r : row => user r.2) shown)).
    { rewrite map_map. cbn [trace_of tr_text].
      rewrite <- (map_map (fun tg => filter (fun r : row => tag r.2 = tg) shown)
                    (map (fun r : row => user r.2))).
      rewrite <- concat_map. apply Permutation_map.
      apply (partition_by_key (fun r : row => tag r.2) shown tags).
      - apply unique_nodup.
      - intros r Hr. apply unique_in.
        apply (in_map (fun r : row => tag r.2)). exact Hr. }
    split; [exact Hp|]. split; [|split].
    + apply NoDup_ListNoDup. rewrite Hp. apply NoDup_ListNoDup, groupby_nodup.
    + rewrite map_map. cbn [trace_of tr_name]. rewrite map_id.
      apply unique_nodup.
    + apply Forall_forall. intros tr Htr.
      apply list_elem_of_In, in_map_iff in Htr as (tg & <- & Htg).
      cbn [trace_of tr_text tr_lon tr_lat]. rewrite !length_map.
      split; [|split; reflexivity].
      apply unique_in, in_map_iff in Htg as (r & Hr & Hin).
      intros E. apply map_eq_nil in E.
      assert (Hf : r ∈ filter (fun r0 : row => tag r0.2 = tg) shown)
        by (apply list_elem_of_filter; split; [exact Hr|apply list_elem_of_In, Hin]).
      rewrite E in Hf. inversion Hf.
Qed.

Lemma traces_partition_the_shown_witness :
  exists fig,
    create_figure stable_sort_values (fun _ => Fnan) (noon 5) None
      (JNum (Fdec false 12 0)) sample_globals = (OK fig, sample_globals)
    /\ Permutation (concat (map tr_text (fig_data fig)))
         (map (fun r : row => user r.2)
            (snapshot stable_sort_values (df sample_globals) (noon 5)))
    /\ List.NoDup (concat (map tr_text (fig_data fig)))
    /\ List.NoDup (map tr_name (fig_data fig))
    /\ Forall (fun tr => tr_text tr <> []
                         /\ length (tr_lon tr) = length (tr_text tr)
                         /\ length (tr_lat tr) = length (tr_text tr))
         (fig_data fig).
Proof.
  apply (traces_partition_the_shown stable_sort_values (fun _ => Fnan)
           (fun _ => 0) sample_data sample_globals).
  - exact stable_sort_values_perm.
  - vm_compute. reflexivity.
Defined.

(** ** Redrawing during playback *)

Lemma getitem_list_in_range {A} (l : list A) (i : Z) :
  0 <= i < Z.of_nat (length l) ->
  exists a, nth_error l (Z.to_nat i) = Some a /\ getitem_list l i = OK a.
Proof.
  intros Hi. unfold getitem_list.
  destruct (Z.ltb_spec i 0); [lia|].
  destruct (Z.leb_spec 0 i); [|lia].
  destruct (Z.ltb_spec i (Z.of_nat (length l))); [|lia].
  cbn [andb]. unfold PyStr.item.
  destruct (nth_error l (Z.to_nat i)) as [a|] eqn:E.
  - exists a. split; reflexivity.
  - apply nth_error_None in E. lia.
Qed.

Lemma update_map_in_range (sort_values : list row -> list row)
    (mean : list pyfloat -> pyfloat) (v : Z) (st : map_state) (g : globals) :
  0 <= v < Z.of_nat (length (unique_times g)) ->
  exists t, nth_error (unique_times g) (Z.to_nat v) = Some t
    /\ update_map sort_values mean v st g
       = create_figure sort_values mean t (center st) (zoom st) g.
Proof.
  intros Hv. destruct (getitem_list_in_range (unique_times g) v Hv) as (t & Ht & Hg).
  exists t. split; [exact Ht|].
  unfold update_map. unfold mbind at 1, py_bind at 1, read at 1.
  unfold mbind at 1, py_bind at 1, lift. rewrite Hg. reflexivity.
Qed.

(** X16.  After start-up, playback never makes a redraw fail: from a
    slider position inside the timeline, after any number of ticks the
    position is still inside the timeline and [update_map] returns the
    figure of the time at that position. *)
Theorem playback_redraw_never_fails (sort_values : list row -> list row)
    (mean : list pyfloat -> pyfloat) (hash : string -> Z)
    (data : list Observation) (g : globals) (K : nat) (n v : Z)
    (st : map_state) :
  (forall l, Permutation (sort_values l) l) ->
  init_globals sort_values hash data = OK g ->
  0 <= v <= Z.of_nat (length (unique_times g)) - 1 ->
  0 <= ticks g K n v <= Z.of_nat (length (unique_times g)) - 1
  /\ exists t fig,
       nth_error (unique_times g) (Z.to_nat (ticks g K n v)) = Some t
       /\ update_map sort_values mean (ticks g K n v) st g = (OK fig, g)
       /\ create_figure sort_values mean t (center st) (zoom st) g = (OK fig, g).
Proof.
  intros Hperm Hinit Hv.
  assert (Hr : 0 <= ticks g K n v <= Z.of_nat (length (unique_times g)) - 1)
    by (rewrite ticks_min by exact Hv; lia).
  split; [exact Hr|].
  destruct (update_map_in_range sort_values mean (ticks g K n v) st g)
    as (t & Ht & Hu); [lia|].
  exists t. eexists. split; [exact Ht|].
  rewrite Hu. split;
    apply (create_figure_with_colors sort_values mean (tag_color hash));
    intros r Hr'; apply (initialised_colors sort_values hash data g t r);
    assumption.
Qed.

Lemma playback_redraw_never_fails_witness :
  0 <= ticks sample_globals 7 0 0
  <= Z.of_nat (length (unique_times sample_globals)) - 1
  /\ exists t fig,
       nth_error (unique_times sample_globals)
         (Z.to_nat (ticks sample_globals 7 0 0)) = Some t
       /\ update_map stable_sort_values (fun _ => Fnan)
            (ticks sample_globals 7 0 0)
            (mk_map_state None (JNum (Fdec false 12 0))) sample_globals
          = (OK fig, sample_globals)
       /\ create_figure stable_sort_values (fun _ => Fnan) t
            (center (mk_map_state None (JNum (Fdec false 12 0))))
            (zoom (mk_map_state None (JNum (Fdec false 12 0)))) sample_globals
          = (OK fig, sample_globals).
Proof.
  apply (playback_redraw_never_fails stable_sort_values (fun _ => Fnan)
           (fun _ => 0) sample_data sample_globals 7 0 0).
  - exact stable_sort_values_perm.
  - vm_compute. reflexivity.
  - vm_compute. split; discriminate.
Defined.

(** X17.  A slider value at or beyond the length of the timeline, or
    below minus the length, makes [update_map] raise IndexError; the
    globals are left as they were. *)
Theorem update_map_out_of_range (sort_values : list row -> list row)
    (mean : list pyfloat -> pyfloat) (v : Z) (st : map_state) (g : globals) :
  Z.of_nat (length (unique_times g)) <= v
  \/ v < - Z.of_nat (length (unique_times g)) ->
  update_map sort_values mean v st g = (Raise IndexError, g).
Proof.
  intros Hv. unfold update_map.
  unfold mbind at 1, py_bind at 1, read at 1.
  unfold mbind at 1, py_bind at 1, lift, getitem_list.
  destruct (Z.ltb_spec v 0).
  - destruct (Z.leb_spec 0 (v + Z.of_nat (length (unique_times g)))); [lia|].
    reflexivity.
  - destruct (Z.ltb_spec v (Z.of_nat (length (unique_times g)))); [lia|].
    rewrite andb_false_r. reflexivity.
Qed.

Lemma update_map_out_of_range_witness :
  update_map stable_sort_values (fun _ => Fnan) 2
    (mk_map_state None (JNum (Fdec false 12 0))) sample_globals
  = (Raise IndexError, sample_globals).
Proof.
  apply (update_map_out_of_range stable_sort_values (fun _ => Fnan) 2).
  left. vm_compute. discriminate.
Defined.

(** X18.  A negative slider value inside the range counts from the
    end of the timeline: [update_map] at [v] with [-N <= v < 0] does
    what it does at [v + N]. *)
Theorem update_map_negative_wraps (sort_values : list row -> list row)
    (mean : list pyfloat -> pyfloat) (v : Z) (st : map_state) (g : globals) :
  - Z.of_nat (length (unique_times g)) <= v < 0 ->
  update_map sort_values mean v st g
  = update_map sort_values mean (v + Z.of_nat (length (unique_times g))) st g.
Proof.
  intros Hv. unfold update_map.
  unfold mbind at 1 3, py_bind at 1 3, read at 1 2.
  unfold mbind at 1 2, py_bind at 1 2, lift, getitem_list.
  destruct (Z.ltb_spec v 0); [|lia].
  destruct (Z.ltb_spec (v + Z.of_nat (length (unique_times g))) 0); [lia|].
  reflexivity.
Qed.

Lemma update_map_negative_wraps_witness :
  update_map stable_sort_values (fun _ => Fnan) (-1)
    (mk_map_state None (JNum (Fdec false 12 0))) sample_globals
  = update_map stable_sort_values (fun _ => Fnan)
      (-1 + Z.of_nat (length (unique_times sample_globals)))
      (mk_map_state None (JNum (Fdec false 12 0))) sample_globals.
Proof.
  apply (update_map_negative_wraps stable_sort_values (fun _ => Fnan) (-1)).
  vm_compute. split; [discriminate|reflexivity].
Defined.

(** ** More on the viewport state *)

(** X19.  [update_map_state] raises exactly on an event whose
    "mapbox.center" entry is not an object with both a latitude and a
    longitude; on every other event, and on no event, it returns a
    state. *)
Theorem update_map_state_succeeds_iff (relayout : option (gmap string jvalue))
    (current_state : map_state) :
  (exists st', update_map_state relayout current_state = OK st')
  <-> wf_relayout relayout.
Proof.
  destruct relayout as [ev|]; cbn [wf_relayout update_map_state];
    [|split; [auto|eauto]].
  unfold event_center.
  destruct (ev !! "mapbox.center") as [[x|fields]|] eqn:Hc.
  - cbn. split.
    + intros [st' H]. discriminate.
    + intros H. destruct (H (ex_intro _ _ eq_refl)) as [? ?]. discriminate.
  - cbn [subscript].
    destruct (fields !! "lat") as [la|]; cbn.
    + destruct (fields !! "lon") as [lo|]; cbn.
      * split; [intros _ _; eexists; reflexivity|intros _; eexists; reflexivity].
      * split.
        -- intros [st' H]. discriminate.
        -- intros H. destruct (H (ex_intro _ _ eq_refl)) as [? ?]. discriminate.
    + split.
      * intros [st' H]. discriminate.
      * intros H. destruct (H (ex_intro _ _ eq_refl)) as [? ?]. discriminate.
  - cbn. split; [intros _ [? H]; discriminate|intros _; eexists; reflexivity].
Qed.

(** X20.  Handling the same event twice changes nothing more: the
    state [update_map_state] returns is a fixed point of the event. *)
Theorem update_map_state_idempotent (relayout : option (gmap string jvalue))
    (current_state st' : map_state) :
  update_map_state relayout current_state = OK st' ->
  update_map_state relayout st' = OK st'.
Proof.
  destruct relayout as [ev|]; cbn [update_map_state].
  - destruct (ev !! "mapbox.center") as [c|].
    + destruct (subscript c "lat") as [la|]; cbn; [|discriminate].
      destruct (subscript c "lon") as [lo|]; cbn; [|discriminate].
      intros H. injection H as <-. cbn.
      destruct (ev !! "mapbox.zoom"); reflexivity.
    + cbn. intros H. injection H as <-. cbn.
      destruct (ev !! "mapbox.zoom"); reflexivity.
  - intros H. injection H as <-. reflexivity.
Qed.

Lemma update_map_state_idempotent_witness :
  update_map_state (Some pan_event)
    (mk_map_state (Some (Fdec true 4129 (-2), Fdec false 17476 (-2)))
       (JNum (Fdec false 12 0)))
  = OK (mk_map_state (Some (Fdec true 4129 (-2), Fdec false 17476 (-2)))
          (JNum (Fdec false 12 0))).
Proof.
  apply (update_map_state_idempotent (Some pan_event)
           (mk_map_state None (JNum (Fdec false 12 0)))).
  vm_compute. reflexivity.
Defined.

(** ** The playback buttons *)

Lemma split_go_nonempty (sep : string) (skip : nat) (cur : list ascii)
    (s : string) :
  PyStr.split_go sep skip cur s <> [].
Proof.
  revert skip cur. induction s as [|c s IH]; intros skip cur; [discriminate|].
  cbn [PyStr.split_go]. destruct skip; [|apply IH].
  destruct (String.prefix sep (String c s)); [discriminate|apply IH].
Qed.

Lemma split_single_head (c : ascii) (cur : list ascii) (s1 s2 : string) :
  count_char c s1 = O ->
  PyStr.split_go (String c EmptyString) O cur (s1 +:+ String c s2)
  = PyStr.join (rev cur ++ PyStr.chars s1)
    :: PyStr.split_go (String c EmptyString) O [] s2.
Proof.
  revert cur. induction s1 as [|d s1 IH]; intros cur H.
  - change (EmptyString +:+ String c s2) with (String c s2).
    cbn [PyStr.split_go]. rewrite prefix_single, Ascii.eqb_refl.
    cbn. rewrite app_nil_r. reflexivity.
  - cbn [count_char] in H.
    change (String d s1 +:+ String c s2) with (String d (s1 +:+ String c s2)).
    cbn [PyStr.split_go]. rewrite prefix_single.
    destruct (Ascii.eqb c d); [discriminate|].
    rewrite IH by exact H. cbn [rev PyStr.chars list_ascii_of_string].
    rewrite <- app_assoc. reflexivity.
Qed.

(** X21.  [control_interval] never raises and has three outcomes only:
    paused (timer off), playing (timer on, every 1000 ms) and
    fast-forward (timer on, every 100 ms). *)
Theorem control_interval_outcomes (triggered : list string)
    (play pause fast : Z) :
  exists out,
    control_interval triggered play pause fast = OK out
    /\ (out = (true, 1000, "Paused ⏸️")
        \/ out = (false, 1000, "Playing ▶️")
        \/ out = (false, 100, "Fast-forward ⏩")).
Proof.
  unfold control_interval. destruct triggered as [|prop_id rest].
  - eexists. split; [reflexivity|]. left. reflexivity.
  - unfold PyStr.split.
    pose proof (split_go_nonempty "." 0 [] prop_id) as Hne.
    destruct (PyStr.split_go "." 0 [] prop_id) as [|button_id pieces];
      [congruence|].
    cbn [PyStr.item nth_error mbind result_bind].
    destruct (String.eqb button_id "play-btn");
      [eexists; split; [reflexivity|]; right; left; reflexivity|].
    destruct (String.eqb button_id "fast-btn");
      [eexists; split; [reflexivity|]; right; right; reflexivity|].
    eexists. split; [reflexivity|]. left. reflexivity.
Qed.

(** X22.  The button is told by the part of the first trigger's id
    before its first dot: "play-btn" starts the timer at 1000 ms,
    "fast-btn" at 100 ms, and any other component pauses; further
    triggers and the click counts play no part. *)
Theorem control_interval_by_button (id prop : string) (others : list string)
    (play pause fast : Z) :
  count_char "." id = O ->
  control_interval ((id +:+ "." +:+ prop) :: others) play pause fast
  = OK (if String.eqb id "play-btn" then (false, 1000, "Playing ▶️")
        else if String.eqb id "fast-btn" then (false, 100, "Fast-forward ⏩")
        else (true, 1000, "Paused ⏸️")).
Proof.
  intros Hid. unfold control_interval, PyStr.split.
  change ("." +:+ prop) with (String "." prop).
  rewrite (split_single_head "." [] id prop Hid).
  cbn [rev app PyStr.item nth_error mbind result_bind]. rewrite join_chars.
  destruct (String.eqb id "play-btn"); [reflexivity|].
  destruct (String.eqb id "fast-btn"); reflexivity.
Qed.

Lemma control_interval_by_button_witness :
  control_interval (("fast-btn" +:+ "." +:+ "n_clicks") :: []) 0 0 1
  = OK (if String.eqb "fast-btn" "play-btn" then (false, 1000, "Playing ▶️")
        else if String.eqb "fast-btn" "fast-btn"
             then (false, 100, "Fast-forward ⏩")
             else (true, 1000, "Paused ⏸️")).
Proof.
  apply (control_interval_by_button "fast-btn" "n_clicks" [] 0 0 1).
  reflexivity.
Defined.

(** ** The slider marks *)

Lemma range_go_in (fuel : nat) (i stop step x : Z) :
  1 <= step -> stop - i <= Z.of_nat fuel ->
  In x (range_go fuel i stop step)
  <-> exists k, 0 <= k /\ x = i + k * step /\ x < stop.
Proof.
  intros Hstep. revert i. induction fuel as [|f IH]; intros i Hfuel.
  - cbn. split; [intros []|]. intros (k & Hk & -> & Hx). nia.
  - cbn [range_go]. destruct (Z.ltb_spec i stop) as [Hlt|Hge].
    + cbn [In]. rewrite IH by lia. split.
      * intros [<-|(k & Hk & -> & Hx)].
        -- exists 0. lia.
        -- exists (k + 1). split; [lia|]. split; [ring|exact Hx].
      * intros (k & Hk & -> & Hx).
        destruct (Z.eq_dec k 0) as [->|Hk0]; [left; ring|].
        right. exists (k - 1). split; [lia|]. split; [ring|exact Hx].
    + split; [intros []|]. intros (k & Hk & -> & Hx). nia.
Qed.

Lemma range_go_length (fuel : nat) (i stop step : Z) :
  1 <= step ->
  Z.of_nat (length (range_go fuel i stop step)) * step
  <= Z.max 0 (stop - i + step - 1).
Proof.
  intros Hstep. revert i. induction fuel as [|f IH]; intros i; [cbn; lia|].
  cbn [range_go]. destruct (Z.ltb_spec i stop) as [Hlt|Hge]; [|cbn; lia].
  cbn [length]. specialize (IH (i + step)). nia.
Qed.

Lemma range_go_increasing (fuel : nat) (i stop step : Z) :
  1 <= step ->
  StronglySorted Z.lt (range_go fuel i stop step)
  /\ Forall (fun x => i <= x) (range_go fuel i stop step).
Proof.
  intros Hstep. revert i. induction fuel as [|f IH]; intros i;
    [split; constructor|].
  cbn [range_go]. destruct (Z.ltb_spec i stop); [|split; constructor].
  destruct (IH (i + step)) as [Hs Hf]. split.
  - constructor; [exact Hs|]. eapply Forall_impl; [exact Hf|]. cbn. lia.
  - constructor; [lia|]. eapply Forall_impl; [exact Hf|]. cbn. lia.
Qed.

Lemma mapM_result_ok {A B} (f : A -> result B) (h : A -> B) (l : list A) :
  (forall x, In x l -> f x = OK (h x)) -> mapM f l = OK (map h l).
Proof.
  induction l as [|x l IH]; intros H; [reflexivity|].
  cbn [mapM map]. rewrite (H x) by (left; reflexivity).
  cbn [mbind result_bind]. rewrite IH by (intros y Hy; apply H; right; exact Hy).
  reflexivity.
Qed.

(** X23.  The marks of the slider are computed without an error for
    every timeline, the empty one included (the step is never zero).
    They sit at the multiples of [max(1, N // 10)] below [N], in
    increasing order, there are at most 19 of them, and each is
    labelled with hour and minute of the time at its position. *)
Theorem slider_marks_shape (g : globals) :
  exists marks,
    slider_marks g = OK marks
    /\ (forall i, In i (map fst marks)
          <-> exists k, 0 <= k
                /\ i = k * Z.max 1 (Z.of_nat (length (unique_times g)) / 10)
                /\ i <= slider_max g)
    /\ StronglySorted Z.lt (map fst marks)
    /\ (length marks <= 19)%nat
    /\ Forall (fun m => exists t,
                 nth_error (unique_times g) (Z.to_nat m.1) = Some t
                 /\ m.2 = strftime_HM t) marks.
Proof.
  unfold slider_marks, slider_max.
  set (times := unique_times g). set (n := Z.of_nat (length times)).
  set (step := Z.max 1 (n / 10)).
  assert (Hstep : 1 <= step) by lia.
  assert (Hn : 0 <= n) by lia.
  assert (Hin : forall i, In i (range 0 n step)
                  <-> exists k, 0 <= k /\ i = k * step /\ i <= n - 1).
  { intros i. unfold range. rewrite range_go_in by lia.
    split; intros (k & Hk & -> & Hx); exists k; repeat split; lia. }
  set (h := fun i : Z =>
              (i, strftime_HM
                    (nth (Z.to_nat i) times (mk_datetime 0 0 0 0 0 0)))).
  assert (Hok : forall i, In i (range 0 n step) ->
            (t ← getitem_list times i; OK (i, strftime_HM t)) = OK (h i)
            /\ exists t, nth_error times (Z.to_nat i) = Some t
                         /\ (h i).2 = strftime_HM t).
  { intros i Hi. apply Hin in Hi as (k & Hk & -> & Hx).
    destruct (getitem_list_in_range times (k * step)) as (t & Ht & Hg);
      [fold n; nia|].
    rewrite Hg. cbn [mbind result_bind]. unfold h.
    rewrite (nth_error_nth _ _ _ Ht). split; [reflexivity|].
    exists t. split; [exact Ht|reflexivity]. }
  exists (map h (range 0 n step)). split; [|split; [|split; [|split]]].
  - apply mapM_result_ok. intros i Hi. apply (Hok i Hi).
  - intros i. rewrite map_map. cbn [h fst]. rewrite map_id. apply Hin.
  - rewrite map_map. cbn [h fst]. rewrite map_id.
    apply range_go_increasing, Hstep.
  - rewrite length_map. unfold range.
    pose proof (range_go_length (Z.to_nat (n - 0)) 0 n step Hstep) as Hl.
    set (len := Z.of_nat (length (range_go (Z.to_nat (n - 0)) 0 n step))) in *.
    assert (Hlen : len <= 19); [|lia].
    assert (Hd : n <= 10 * (n / 10) + 9)
      by (pose proof (Z.div_mod n 10); pose proof (Z.mod_pos_bound n 10); lia).
    destruct (Z.le_gt_cases 1 (n / 10)) as [Hbig|Hsmall].
    + assert (step = n / 10) by lia.
      assert (len * step <= 19 * step) by lia.
      apply (Z.mul_le_mono_pos_r len 19 step); lia.
    + assert (step = 1) by lia. lia.
  - apply Forall_forall. intros m Hm.
    apply list_elem_of_In, in_map_iff in Hm as (i & <- & Hi).
    apply (Hok i Hi).
Qed.

(** ** The two ends of the timeline *)

Lemma strict_last_is_greatest (l : list datetime) (t x : datetime) :
  StronglySorted dt_lt l -> last l = Some t -> In x l -> dt_le x t.
Proof.
  induction 1 as [|y l Hs IH Hall]; [discriminate|].
  intros Hlast [->|Hx].
  - destruct l as [|z l].
    + cbn in Hlast. injection Hlast as <-. apply dt_le_refl.
    + apply dt_lt_le. rewrite Forall_forall in Hall. apply Hall.
      rewrite last_cons_cons in Hlast. apply last_Some_elem_of, Hlast.
  - apply IH; [|exact Hx]. destruct l as [|z l]; [destruct Hx|].
    rewrite last_cons_cons in Hlast. exact Hlast.
Qed.

(** X24.  With the cursor on the last time of the timeline every
    entity that was ever observed is shown, with a row no earlier than
    any of its observations: the map shows the last known position of
    everyone. *)
Theorem last_position_shows_everyone (sort_values : list row -> list row)
    (hash : string -> Z) (data : list Observation) (g : globals)
    (t : datetime) (o : Observation) :
  (forall l, Permutation (sort_values l) l) ->
  (forall l, Sorted dt_le_row (sort_values l)) ->
  init_globals sort_values hash data = OK g ->
  last (unique_times g) = Some t ->
  In o data ->
  exists r, In r (snapshot sort_values (df g) t)
    /\ user r.2 = user o
    /\ forall o', In o' data -> user o' = user o ->
         dt_le (time o') (time r.2).
Proof.
  intros Hperm Hsorted Hinit Hlast Ho.
  pose proof (timeline_strict sort_values hash data g Hinit) as Hstrict.
  pose proof (fun t => timeline_members sort_values hash data g t Hperm Hinit)
    as Htimes.
  destruct (init_globals_fields _ _ _ _ Hinit) as (_ & Hdf & _).
  assert (Hall : forall o', In o' data -> dt_le (time o') t).
  { intros o' Ho'. apply (strict_last_is_greatest _ t _ Hstrict Hlast).
    apply Htimes. exists o'. split; [exact Ho'|reflexivity]. }
  assert (Hrow : forall o', In o' data -> exists i, In (i, o') (df g)).
  { intros o' Ho'. apply DataFrame_obs in Ho' as (i & Hi). exists i.
    rewrite Hdf. apply (Permutation_in _ (Permutation_sym (Hperm _))), Hi. }
  destruct (Hrow o Ho) as (i & Hi).
  destruct (proj2 (snapshot_present sort_values Hperm (df g) t (user o)))
    as (r & Hr & Hu).
  { exists (i, o). split; [exact Hi|]. split; [reflexivity|apply Hall, Ho]. }
  exists r. split; [exact Hr|]. split; [exact Hu|].
  intros o' Ho' Hu'. destruct (Hrow o' Ho') as (i' & Hi').
  apply (snapshot_max sort_values Hperm Hsorted (df g) t r (i', o') Hr Hi').
  - cbn. congruence.
  - apply Hall, Ho'.
Qed.

Lemma last_position_shows_everyone_witness :
  exists r, In r (snapshot stable_sort_values (df sample_globals) (noon 5))
    /\ user r.2 = user bravo
    /\ forall o', In o' sample_data -> user o' = user bravo ->
         dt_le (time o') (time r.2).
Proof.
  apply (last_position_shows_everyone stable_sort_values (fun _ => 0)
           sample_data sample_globals (noon 5) bravo).
  - exact stable_sort_values_perm.
  - exact stable_sort_values_sorted.
  - vm_compute. reflexivity.
  - vm_compute. reflexivity.
  - right. left. reflexivity.
Defined.

(** X25.  With the cursor on the first time of the timeline only
    observations made at that very time are shown. *)
Theorem first_position_shows_first_time (sort_values : list row -> list row)
    (hash : string -> Z) (data : list Observation) (g : globals)
    (t : datetime) (r : row) :
  (forall l, Permutation (sort_values l) l) ->
  init_globals sort_values hash data = OK g ->
  head (unique_times g) = Some t ->
  In r (snapshot sort_values (df g) t) ->
  time r.2 = t.
Proof.
  intros Hperm Hinit Hhead Hr.
  pose proof (timeline_strict sort_values hash data g Hinit) as Hstrict.
  pose proof (fun t => timeline_members sort_values hash data g t Hperm Hinit)
    as Htimes.
  destruct (init_globals_fields _ _ _ _ Hinit) as (_ & Hdf & _).
  destruct (snapshot_in sort_values Hperm (df g) t r Hr) as [Hin Hle].
  apply dt_le_antisym; [exact Hle|].
  assert (Ht : In (time r.2) (unique_times g)).
  { apply Htimes. exists r.2. split; [|reflexivity].
    apply DataFrame_obs. exists r.1. rewrite Hdf in Hin.
    apply (Permutation_in _ (Hperm _)) in Hin. destruct r; exact Hin. }
  destruct (unique_times g) as [|t0 l]; [discriminate|].
  cbn in Hhead. injection Hhead as ->.
  destruct Ht as [<-|Ht]; [apply dt_le_refl|].
  apply dt_lt_le. inversion Hstrict as [|? ? _ Hall]; subst.
  rewrite Forall_forall in Hall. apply Hall, list_elem_of_In, Ht.
Qed.

Lemma first_position_shows_first_time_witness :
  time (1%nat, bravo).2 = noon 0.
Proof.
  apply (first_position_shows_first_time stable_sort_values (fun _ => 0)
           sample_data sample_globals (noon 0) (1%nat, bravo)).
  - exact stable_sort_values_perm.
  - vm_compute. reflexivity.
  - reflexivity.
  - vm_compute. left. reflexivity.
Defined.
